(** * Hotstar scaling simulation: the tick generator and its control actions

    A shallow embedding of [src/app/page.tsx] (the React component
    [HotstarScalingSimulation]): the per-tick function [generateMetrics], the
    handlers [startSimulation], [stopSimulation], [resetSimulation] and
    [simulateTrafficSpike], the two bounded history buffers, and what the
    cards and badges compute from the state ([formatNumber], [currentMetric],
    [cacheData], the cache and response-time cards, the load badge).

    Conventions of the embedding.
    - A JavaScript [number] that the code may leave fractional (the load, the
      random draw, every intermediate quantity of a tick) is a rational [Q];
      arithmetic is exact, so IEEE-754 rounding and the non-finite values are
      outside the model.  [Math.random()] returns a double, which is a dyadic
      rational, so every possible draw is a [Q].
    - A number that the code passes through [Math.floor] / [Math.ceil], or
      that only ever holds such a value ([pods]), is a [Z].
    - [Math.random()] and the wall-clock [timestamp] are explicit arguments
      of a tick.
    - The component's [useState] cells form one record [State]; a handler is a
      function [State -> State].  The callbacks queued by [setTimeout] are a
      field of that record, so that the deferred revert of a spike is a step
      of its own. *)

From Stdlib Require Import ZArith QArith Qround Qminmax.
From Stdlib Require Import List String Ascii Bool Lia Lqa DecimalString.
Import ListNotations.

Local Open Scope Z_scope.

(** ** JavaScript primitives used by the component *)

Module Js.

(** [`${n}`] for an integral number. *)
Definition toString (n : Z) : string := NilZero.string_of_int (Z.to_int n).

(** [a > b] on numbers. *)
Definition gt (a b : Q) : bool := negb (Qle_bool a b).

(** [a < b] on numbers. *)
Definition lt (a b : Q) : bool := negb (Qle_bool b a).

(** [arr.slice(-n)]: the last [n] elements, the whole array when it is
    shorter. *)
Definition slice_last {A : Type} (n : nat) (arr : list A) : list A :=
  skipn (List.length arr - n) arr.

(** [arr.slice(0, n)]: the first [n] elements, the whole array when it is
    shorter. *)
Definition slice_first {A : Type} (n : nat) (arr : list A) : list A :=
  firstn n arr.

End Js.

(** ** Data model *)

(** [interface MetricData]. *)
Module MetricData.
Record t : Type := mk {
  timestamp : string;
  requests : Z;
  cacheHits : Z;
  cacheMisses : Z;
  pods : Z;
  cpuUsage : Z;
  responseTime : Z;
  activeUsers : Z
}.
End MetricData.

(** The string-literal union of [LogEntry.level]. *)
Inductive Level : Type := INFO | WARN | ERROR | CRITICAL.

(** The string-literal union of [LogEntry.component]. *)
Inductive Component : Type := API | CACHE | K8S | LB | INFRA.

(** [interface LogEntry]. *)
Module LogEntry.
Record t : Type := mk {
  timestamp : string;
  level : Level;
  component : Component;
  message : string
}.
End LogEntry.

(** A callback queued by [setTimeout(() => setCurrentLoad(v), ms)]. *)
Record Timeout : Type := {
  delay : Z;
  revertLoad : Q
}.

(** The [useState] cells of the component, and the pending timeouts. *)
Record State : Type := {
  isRunning : bool;
  currentLoad : Q;
  metrics : list MetricData.t;
  logs : list LogEntry.t;
  pods : Z;
  cacheHitRate : Q;
  timeouts : list Timeout
}.

(** The initial values given to [useState]. *)
Definition initialState : State :=
  {| isRunning := false;
     currentLoad := 150000;
     metrics := [];
     logs := [];
     pods := 50;
     cacheHitRate := 92;
     timeouts := [] |}.

(** ** One tick: [generateMetrics] *)

Module GenerateMetrics.
Section Body.

(** The values the closure reads: the state cells [currentLoad],
    [cacheHitRate] and [pods], the wall-clock [timestamp] and the result
    [random] of [Math.random()]. *)
Variables (currentLoad cacheHitRate : Q) (pods : Z).
Variables (timestamp : string) (random : Q).

Local Open Scope Q_scope.

Definition baseRequests : Q := currentLoad.
Definition requests : Q := baseRequests + random * 50000.

Definition hitRate : Q :=
  Qmax 88 (cacheHitRate - (currentLoad / 1000000) * 5).
Definition cacheHits : Z := Qfloor (requests * (hitRate / 100)).
Definition cacheMisses : Z := Qfloor (requests - inject_Z cacheHits).

Definition targetPods : Z := Qceiling (requests / 3000).
Definition newPods : Z := Z.min (Z.max 50 targetPods) 2500.

Definition cpuUsage : Q :=
  Qmin 95 ((requests / (inject_Z newPods * 3000)) * 100).

Definition baseResponseTime : Q := 45.
Definition loadFactor : Q := Qmax 1 (requests / 200000).
Definition cacheFactor : Q := hitRate / 100.
Definition responseTime : Q :=
  baseResponseTime * loadFactor * (2.5 - cacheFactor).

Definition activeUsers : Z := Qfloor (requests / 3.5).

Definition newMetric : MetricData.t :=
  {| MetricData.timestamp := timestamp;
     MetricData.requests := Qfloor requests;
     MetricData.cacheHits := cacheHits;
     MetricData.cacheMisses := cacheMisses;
     MetricData.pods := newPods;
     MetricData.cpuUsage := Qfloor cpuUsage;
     MetricData.responseTime := Qfloor responseTime;
     MetricData.activeUsers := activeUsers |}.

Local Open Scope string_scope.

(** The six conditional [newLogs.push(...)], one definition each, in the
    order of the source. *)

Definition scalingLog : list LogEntry.t :=
  if negb (newPods =? pods)%Z then
    [ {| LogEntry.timestamp := timestamp;
         LogEntry.level := if (newPods >? pods)%Z then INFO else WARN;
         LogEntry.component := K8S;
         LogEntry.message :=
           "Scaling " ++ (if (newPods >? pods)%Z then "up" else "down")
           ++ " to " ++ Js.toString newPods
           ++ " pods (was " ++ Js.toString pods ++ ")" |} ]
  else [].

Definition cpuLog : list LogEntry.t :=
  if Js.gt cpuUsage 80 then
    [ {| LogEntry.timestamp := timestamp;
         LogEntry.level := WARN;
         LogEntry.component := K8S;
         LogEntry.message :=
           "High CPU usage: " ++ Js.toString (Qfloor cpuUsage) ++ "%" |} ]
  else [].

Definition cacheLog : list LogEntry.t :=
  if Js.lt hitRate 90 then
    [ {| LogEntry.timestamp := timestamp;
         LogEntry.level := WARN;
         LogEntry.component := CACHE;
         LogEntry.message :=
           "Cache hit rate dropped to " ++ Js.toString (Qfloor hitRate)
           ++ "% (critical at IPL scale)" |} ]
  else [].

Definition latencyLog : list LogEntry.t :=
  if Js.gt responseTime 150 then
    [ {| LogEntry.timestamp := timestamp;
         LogEntry.level := ERROR;
         LogEntry.component := API;
         LogEntry.message :=
           "High response time: " ++ Js.toString (Qfloor responseTime)
           ++ "ms" |} ]
  else [].

Definition trafficLog : list LogEntry.t :=
  if Js.gt requests 500000 then
    [ {| LogEntry.timestamp := timestamp;
         LogEntry.level := INFO;
         LogEntry.component := LB;
         LogEntry.message :=
           "High traffic detected: "
           ++ Js.toString (Qfloor (requests / 1000)) ++ "K req/s" |} ]
  else [].

Definition peakLog : list LogEntry.t :=
  if Js.gt requests 2000000 then
    [ {| LogEntry.timestamp := timestamp;
         LogEntry.level := CRITICAL;
         LogEntry.component := INFRA;
         LogEntry.message :=
           "PEAK IPL TRAFFIC: "
           ++ Js.toString (Qfloor (requests / 1000000)) ++ "M req/s - "
           ++ Js.toString (Qfloor (inject_Z activeUsers / 10000000))
           ++ " crore users" |} ]
  else [].

(** The array [newLogs] once all six conditions have been evaluated. *)
Definition newLogs : list LogEntry.t :=
  (scalingLog ++ cpuLog ++ cacheLog ++ latencyLog ++ trafficLog
     ++ peakLog)%list.

End Body.
End GenerateMetrics.

(** [generateMetrics]: [setPods(newPods)], [setMetrics(prev => ...)] and, when
    [newLogs] is not empty, [setLogs(prev => ...)].  The closure is rebuilt
    whenever [currentLoad], [pods] or [cacheHitRate] changes (the dependency
    list of the effect that installs the interval), so a tick reads the
    current cells. *)
Definition generateMetrics (timestamp : string) (random : Q) (s : State)
  : State :=
  let newMetric :=
    GenerateMetrics.newMetric (currentLoad s) (cacheHitRate s) timestamp random in
  let newLogs :=
    GenerateMetrics.newLogs
      (currentLoad s) (cacheHitRate s) (pods s) timestamp random in
  {| isRunning := isRunning s;
     currentLoad := currentLoad s;
     metrics := Js.slice_last 19 (metrics s) ++ [newMetric];
     logs := if (0 <? List.length newLogs)%nat
             then newLogs ++ Js.slice_first 49 (logs s)
             else logs s;
     pods := GenerateMetrics.newPods (currentLoad s) random;
     cacheHitRate := cacheHitRate s;
     timeouts := timeouts s |}.

(** ** Control actions *)

Definition startSimulation (s : State) : State :=
  {| isRunning := true;
     currentLoad := currentLoad s;
     metrics := metrics s;
     logs := logs s;
     pods := pods s;
     cacheHitRate := cacheHitRate s;
     timeouts := timeouts s |}.

Definition stopSimulation (s : State) : State :=
  {| isRunning := false;
     currentLoad := currentLoad s;
     metrics := metrics s;
     logs := logs s;
     pods := pods s;
     cacheHitRate := cacheHitRate s;
     timeouts := timeouts s |}.

Definition resetSimulation (s : State) : State :=
  {| isRunning := false;
     currentLoad := 150000;
     metrics := [];
     logs := [];
     pods := 50;
     cacheHitRate := cacheHitRate s;
     timeouts := timeouts s |}.

(** [setCurrentLoad(3000000)], then a [setTimeout] that is queued behind the
    ones already pending. *)
Definition simulateTrafficSpike (s : State) : State :=
  {| isRunning := isRunning s;
     currentLoad := 3000000;
     metrics := metrics s;
     logs := logs s;
     pods := pods s;
     cacheHitRate := cacheHitRate s;
     timeouts := timeouts s ++ [ {| delay := 15000; revertLoad := 800000 |} ] |}.

(** A due timeout runs its callback [() => setCurrentLoad(v)] and leaves the
    queue. *)
Definition runTimeout (t : Timeout) (rest : list Timeout) (s : State)
  : State :=
  {| isRunning := isRunning s;
     currentLoad := revertLoad t;
     metrics := metrics s;
     logs := logs s;
     pods := pods s;
     cacheHitRate := cacheHitRate s;
     timeouts := rest |}.

(** ** The component as a transition system *)

(** What can happen to the component: a click on one of the four buttons, the
    interval firing, and a pending timeout firing. *)
Inductive Event : Type :=
| ClickStart
| ClickPause
| ClickReset
| ClickSpike
| IntervalFires (timestamp : string) (random : Q)
| TimeoutFires.

(** [Math.random()] lies in [[0, 1)]. *)
Definition validDraw (random : Q) : bool :=
  Qle_bool 0 random && Js.lt random 1.

(** One event.  The guards are those of the source: the interval exists only
    while [isRunning]; the Start button is [disabled={isRunning}], the Pause
    and spike buttons are [disabled={!isRunning}]; Reset is always enabled.
    All timeouts have the same delay, so they fire in the order they were
    queued. *)
Definition fire (e : Event) (s : State) : option State :=
  match e with
  | ClickStart => if isRunning s then None else Some (startSimulation s)
  | ClickPause => if isRunning s then Some (stopSimulation s) else None
  | ClickReset => Some (resetSimulation s)
  | ClickSpike => if isRunning s then Some (simulateTrafficSpike s) else None
  | IntervalFires timestamp random =>
      if isRunning s && validDraw random
      then Some (generateMetrics timestamp random s)
      else None
  | TimeoutFires =>
      match timeouts s with
      | [] => None
      | t :: rest => Some (runTimeout t rest s)
      end
  end.

(** A sequence of events, oldest first. *)
Fixpoint run (es : list Event) (s : State) : option State :=
  match es with
  | [] => Some s
  | e :: es' =>
      match fire e s with
      | Some s' => run es' s'
      | None => None
      end
  end.

(** The states the component can be in. *)
Inductive reachable : State -> Prop :=
| reachable_init : reachable initialState
| reachable_fire (s s' : State) (e : Event) :
    reachable s -> fire e s = Some s' -> reachable s'.

(** The state after a session of events from the initial state (the initial
    state itself when some event of the session is not enabled). *)
Definition stateAfter (es : list Event) : State :=
  match run es initialState with
  | Some s => s
  | None => initialState
  end.

(** ** What the component renders *)

Section FormatNumber.

(** [x.toFixed(1)].  Which digit it prints depends on the binary rounding of
    the double [x], so the digits are left to this function; everything
    [formatNumber] itself decides is modelled. *)
Variable toFixed1 : Q -> string.

(** [formatNumber], on the integral values the component passes to it
    ([pods] and a sample's [activeUsers]). *)
Definition formatNumber (num : Z) : string :=
  if 10000000 <=? num then
    (toFixed1 (inject_Z num / 10000000) ++ " Cr")%string
  else if 100000 <=? num then
    (toFixed1 (inject_Z num / 100000) ++ " L")%string
  else if 1000 <=? num then
    (toFixed1 (inject_Z num / 1000) ++ "K")%string
  else Js.toString num.

End FormatNumber.

(** [metrics[metrics.length - 1]]: [undefined] on the empty array, where the
    index is [-1]. *)
Definition currentMetric (s : State) : option MetricData.t :=
  match metrics s with
  | [] => None
  | _ :: _ => nth_error (metrics s) (List.length (metrics s) - 1)
  end.

(** An element of [cacheData]. *)
Record CacheSlice : Type := {
  name : string;
  value : Z;
  color : string
}.

Definition cacheData (s : State) : list CacheSlice :=
  match currentMetric s with
  | Some m =>
      [ {| name := "Cache Hits";
           value := MetricData.cacheHits m;
           color := "#10b981" |};
        {| name := "Cache Misses";
           value := MetricData.cacheMisses m;
           color := "#ef4444" |} ]
  | None => []
  end.

(** A number put on the page: an integer, or what JavaScript prints for the
    result of a division by zero ([NaN] or an infinity). *)
Inductive Shown : Type :=
| ShownInteger (n : Z)
| ShownNotFinite.

(** The "Cache Hit Rate" card:
    [currentMetric ? Math.floor((cacheHits / (cacheHits + cacheMisses)) * 100) : 0]. *)
Definition cacheHitRateCard (s : State) : Shown :=
  match currentMetric s with
  | Some m =>
      let total := MetricData.cacheHits m + MetricData.cacheMisses m in
      if total =? 0 then ShownNotFinite
      else ShownInteger
             (Qfloor ((inject_Z (MetricData.cacheHits m) / inject_Z total)
                      * 100)%Q)
  | None => ShownInteger 0
  end.

(** The "Response Time" card: [currentMetric?.responseTime || 0]. *)
Definition responseTimeCard (s : State) : Z :=
  match currentMetric s with
  | Some m =>
      if MetricData.responseTime m =? 0 then 0 else MetricData.responseTime m
  | None => 0
  end.

(** The [variant] of the "Current Load" badge. *)
Definition loadBadgeVariant (s : State) : string :=
  if Js.gt (currentLoad s) 8000 then "destructive"
  else if Js.gt (currentLoad s) 5000 then "secondary"
  else "default".

(** The "System Logs" tab shows a placeholder instead of the list when
    [logs.length === 0]. *)
Definition logsPlaceholderShown (s : State) : bool :=
  (List.length (logs s) =? 0)%nat.

(** ** Vocabulary of the properties *)

Definition Component_eqb (a b : Component) : bool :=
  match a, b with
  | API, API | CACHE, CACHE | K8S, K8S | LB, LB | INFRA, INFRA => true
  | _, _ => false
  end.

(** [s.startsWith(p)]. *)
Fixpoint startsWith (p s : string) : bool :=
  match p, s with
  | EmptyString, _ => true
  | String _ _, EmptyString => false
  | String a p', String b s' => Ascii.eqb a b && startsWith p' s'
  end.

(** The entry pushed when the pod count changes: the K8S entry whose message
    is built from the template [`Scaling ...`]. *)
Definition isScalingEntry (e : LogEntry.t) : bool :=
  Component_eqb (LogEntry.component e) K8S
  && startsWith "Scaling " (LogEntry.message e).

(** The entries a tick pushes after the scaling entry: the five that do not
    depend on the previous pod count. *)
Definition eventLogs (load rate : Q) (timestamp : string) (random : Q)
  : list LogEntry.t :=
  GenerateMetrics.cpuLog load timestamp random
  ++ GenerateMetrics.cacheLog load rate timestamp
  ++ GenerateMetrics.latencyLog load rate timestamp random
  ++ GenerateMetrics.trafficLog load timestamp random
  ++ GenerateMetrics.peakLog load timestamp random.

(** The control actions: the four buttons. *)
Definition isClick (e : Event) : bool :=
  match e with
  | ClickStart | ClickPause | ClickReset | ClickSpike => true
  | IntervalFires _ _ | TimeoutFires => false
  end.

Definition isTimeoutFires (e : Event) : bool :=
  match e with
  | TimeoutFires => true
  | _ => false
  end.

(** The number of timeouts that fire during a session. *)
Definition timeoutsFired (es : list Event) : nat :=
  List.length (filter isTimeoutFires es).

(** A session: start, press the spike button, then let the interval fire
    [n] times, every draw of [Math.random()] being [0]. *)
Definition spikeSession (n : nat) : list Event :=
  [ClickStart; ClickSpike] ++ repeat (IntervalFires "20:00:00" 0%Q) n.

(** A session without a spike: start, then [n] ticks with draw [1/2]. *)
Definition calmSession (n : nat) : list Event :=
  ClickStart :: repeat (IntervalFires "19:30:00" (1 # 2)%Q) n.

(** The three values the code ever gives to [currentLoad]: the initial and
    reset value, the spike and the value the spike reverts to. *)
Definition loadLevel (load : Q) : Prop :=
  load = 150000%Q \/ load = 800000%Q \/ load = 3000000%Q.

(** The only timeout the code ever queues. *)
Definition spikeTimeout : Timeout :=
  {| delay := 15000; revertLoad := 800000 |}.

(** A sample computed by a tick at one of the load levels, with the baseline
    at 92 and a draw of [Math.random()]. *)
Definition tickSample (m : MetricData.t) : Prop :=
  exists load timestamp random,
    loadLevel load /\ validDraw random = true
    /\ m = GenerateMetrics.newMetric load 92 timestamp random.

(** A pod count is the initial one or was computed by such a tick. *)
Definition tickPods (n : Z) : Prop :=
  n = 50
  \/ exists load random,
       loadLevel load /\ validDraw random = true
       /\ n = GenerateMetrics.newPods load random.

(** The level and component of each entry, in order. *)
Definition tags (entries : list LogEntry.t) : list (Level * Component) :=
  map (fun e => (LogEntry.level e, LogEntry.component e)) entries.

(** A session in which the pod count changes at every tick of a spike: the
    draws alternate between [0] and [1/2]. *)
Definition busySession (n : nat) : list Event :=
  [ClickStart; ClickSpike]
  ++ List.concat (repeat [IntervalFires "20:00:00" 0%Q;
                     IntervalFires "20:00:01" (1 # 2)%Q] n).

(** * Properties *)

(** ** Rounding *)

Section Rounding.
Local Open Scope Q_scope.

(** The floor of [x] is the only integer [n] with [n <= x < n + 1]. *)
Lemma Qfloor_unique (x : Q) (n : Z) :
  inject_Z n <= x -> x < inject_Z (n + 1) -> Qfloor x = n.
Proof.
  intros Hlo Hhi.
  assert (H1 : (n <= Qfloor x)%Z).
  { rewrite <- (Qfloor_Z n). now apply Qfloor_resp_le. }
  assert (H2 : (Qfloor x < n + 1)%Z).
  { rewrite Zlt_Qlt. eapply Qle_lt_trans; [apply Qfloor_le | exact Hhi]. }
  lia.
Qed.

(** Subtracting an integer commutes with [Math.floor]. *)
Lemma Qfloor_minus_Z (x : Q) (z : Z) :
  Qfloor (x - inject_Z z) = (Qfloor x - z)%Z.
Proof.
  apply Qfloor_unique.
  - unfold Zminus. rewrite inject_Z_plus, inject_Z_opp.
    pose proof (Qfloor_le x). lra.
  - replace (Qfloor x - z + 1)%Z with ((Qfloor x + 1) + - z)%Z by lia.
    rewrite inject_Z_plus, inject_Z_opp.
    pose proof (Qlt_floor x). lra.
Qed.

Lemma Qfloor_nonneg (x : Q) : 0 <= x -> (0 <= Qfloor x)%Z.
Proof.
  intros Hx. change 0%Z with (Qfloor (inject_Z 0)).
  now apply Qfloor_resp_le.
Qed.

End Rounding.

(** ** The quantities of one tick *)

Section TickQuantities.
Local Open Scope Q_scope.

Variables (load rate : Q) (random : Q).
Hypothesis load_nonneg : 0 <= load.
Hypothesis random_nonneg : 0 <= random.

Lemma requests_nonneg : 0 <= GenerateMetrics.requests load random.
Proof.
  unfold GenerateMetrics.requests, GenerateMetrics.baseRequests. lra.
Qed.

Lemma newPods_range :
  (50 <= GenerateMetrics.newPods load random <= 2500)%Z.
Proof. unfold GenerateMetrics.newPods. lia. Qed.

(** The divisor of [cpuUsage] is never zero. *)
Lemma capacity_pos :
  0 < inject_Z (GenerateMetrics.newPods load random) * 3000.
Proof.
  destruct newPods_range as [Hlo _].
  rewrite Zle_Qle in Hlo. change (inject_Z 50) with 50 in Hlo. lra.
Qed.

Lemma cpuUsage_range :
  0 <= GenerateMetrics.cpuUsage load random
  /\ GenerateMetrics.cpuUsage load random <= 95.
Proof.
  unfold GenerateMetrics.cpuUsage. split.
  - apply Q.min_glb; [lra|].
    apply Qmult_le_0_compat; [|lra].
    apply Qle_shift_div_l; [apply capacity_pos|].
    pose proof requests_nonneg. lra.
  - apply Q.le_min_l.
Qed.

(** The cache never does better than its baseline and never worse than
    88%. *)
Lemma hitRate_range :
  rate == 92 ->
  88 <= GenerateMetrics.hitRate load rate
  /\ GenerateMetrics.hitRate load rate <= 92.
Proof.
  intros Hrate. unfold GenerateMetrics.hitRate. split.
  - apply Q.le_max_l.
  - apply Q.max_lub; [lra|].
    assert (0 <= load / 1000000) by (apply Qle_shift_div_l; lra).
    lra.
Qed.

Lemma loadFactor_ge_1 : 1 <= GenerateMetrics.loadFactor load random.
Proof. unfold GenerateMetrics.loadFactor. apply Q.le_max_l. Qed.

(** The factor [2.5 - cacheFactor] of the response time is positive. *)
Lemma cacheFactor_gap :
  rate == 92 -> 0 < 2.5 - GenerateMetrics.cacheFactor load rate.
Proof.
  intros Hrate. unfold GenerateMetrics.cacheFactor.
  destruct (hitRate_range Hrate) as [_ Hhi].
  assert (Hcf : GenerateMetrics.hitRate load rate / 100 <= 92 / 100).
  { apply Qmult_le_compat_r; [exact Hhi | discriminate]. }
  assert (H92 : 92 / 100 == 23 # 25) by reflexivity.
  assert (H25 : 2.5 == 5 # 2) by reflexivity.
  rewrite H92 in Hcf. rewrite H25. lra.
Qed.

Lemma responseTime_nonneg :
  rate == 92 -> 0 <= GenerateMetrics.responseTime load rate random.
Proof.
  intros Hrate.
  unfold GenerateMetrics.responseTime, GenerateMetrics.baseResponseTime.
  pose proof (cacheFactor_gap Hrate) as Hgap.
  pose proof loadFactor_ge_1 as Hlf.
  apply Qmult_le_0_compat.
  - apply Qmult_le_0_compat; lra.
  - lra.
Qed.

End TickQuantities.

(** The sample a tick emits is the last element of the metrics buffer. *)
Lemma generateMetrics_emits (timestamp : string) (random : Q) (s : State) :
  metrics (generateMetrics timestamp random s)
  = Js.slice_last 19 (metrics s)
    ++ [GenerateMetrics.newMetric
          (currentLoad s) (cacheHitRate s) timestamp random].
Proof. reflexivity. Qed.

(** ** Samples *)

(** C2.  The sample a tick appends to the metrics buffer splits its requests
    into hits and misses: [cacheHits + cacheMisses] is the sample's
    [requests] field, which is the floor of the raw request rate
    [currentLoad + random * 50000].  This holds for every load and every
    draw, in particular for a load [>= 0] and a draw in [[0, 1)]. *)
Theorem cache_hits_and_misses_partition_requests
  (s : State) (timestamp : string) (random : Q) :
  exists older m,
    metrics (generateMetrics timestamp random s) = older ++ [m]
    /\ MetricData.cacheHits m + MetricData.cacheMisses m
       = MetricData.requests m
    /\ MetricData.requests m = Qfloor (currentLoad s + random * 50000)%Q.
Proof.
  eexists; eexists. split; [apply generateMetrics_emits|].
  cbn [GenerateMetrics.newMetric MetricData.cacheHits MetricData.cacheMisses
       MetricData.requests].
  split; [|reflexivity].
  unfold GenerateMetrics.cacheMisses. rewrite Qfloor_minus_Z. lia.
Qed.

(** C3.  Whatever the load ([>= 0]) and the draw (in [[0, 1)]), the sample a
    tick emits has [50 <= pods <= 2500] and [0 <= cpuUsage <= 95]. *)
Theorem pods_and_cpu_stay_in_range
  (s : State) (timestamp : string) (random : Q) :
  (0 <= currentLoad s)%Q -> (0 <= random)%Q -> (random < 1)%Q ->
  exists older m,
    metrics (generateMetrics timestamp random s) = older ++ [m]
    /\ 50 <= MetricData.pods m <= 2500
    /\ 0 <= MetricData.cpuUsage m <= 95.
Proof.
  intros Hload Hlo _.
  eexists; eexists. split; [apply generateMetrics_emits|].
  cbn [GenerateMetrics.newMetric MetricData.pods MetricData.cpuUsage].
  split; [apply newPods_range|].
  destruct (cpuUsage_range _ _ Hload Hlo) as [Hge Hle]. split.
  - now apply Qfloor_nonneg.
  - change 95 with (Qfloor (inject_Z 95)). now apply Qfloor_resp_le.
Qed.

Lemma pods_and_cpu_stay_in_range_witness :
  (0 <= currentLoad (stateAfter (spikeSession 3)))%Q
  /\ (0 <= 3 # 4)%Q /\ (3 # 4 < 1)%Q
  /\ exists older m,
       metrics (generateMetrics "20:00:03" (3 # 4) (stateAfter (spikeSession 3)))
       = older ++ [m]
       /\ 50 <= MetricData.pods m <= 2500
       /\ 0 <= MetricData.cpuUsage m <= 95.
Proof.
  assert (Hload : (0 <= currentLoad (stateAfter (spikeSession 3)))%Q)
    by (vm_compute; discriminate).
  assert (Hlo : (0 <= 3 # 4)%Q) by (vm_compute; discriminate).
  assert (Hhi : (3 # 4 < 1)%Q) by reflexivity.
  repeat split; try assumption.
  exact (pods_and_cpu_stay_in_range
           (stateAfter (spikeSession 3)) "20:00:03" (3 # 4) Hload Hlo Hhi).
Defined.

(** C9.  With the baseline at 92, a load [>= 0] and a draw in [[0, 1)], the
    hit rate of the tick lies in [[88, 92]], so the factor
    [2.5 - hitRate / 100] is positive and the sample's [responseTime] is not
    negative. *)
Theorem response_time_is_nonnegative
  (s : State) (timestamp : string) (random : Q) :
  (cacheHitRate s == 92)%Q ->
  (0 <= currentLoad s)%Q -> (0 <= random)%Q -> (random < 1)%Q ->
  (88 <= GenerateMetrics.hitRate (currentLoad s) (cacheHitRate s) <= 92)%Q
  /\ (0 < 2.5 - GenerateMetrics.cacheFactor (currentLoad s) (cacheHitRate s))%Q
  /\ exists older m,
       metrics (generateMetrics timestamp random s) = older ++ [m]
       /\ 0 <= MetricData.responseTime m.
Proof.
  intros Hrate Hload Hlo _. split; [|split].
  - exact (hitRate_range _ _ Hload Hrate).
  - exact (cacheFactor_gap _ _ Hload Hrate).
  - eexists; eexists. split; [apply generateMetrics_emits|].
    cbn [GenerateMetrics.newMetric MetricData.responseTime].
    apply Qfloor_nonneg. now apply responseTime_nonneg.
Qed.

Lemma response_time_is_nonnegative_witness :
  (cacheHitRate (stateAfter (spikeSession 2)) == 92)%Q
  /\ (0 <= currentLoad (stateAfter (spikeSession 2)))%Q
  /\ (0 <= 1 # 3)%Q /\ (1 # 3 < 1)%Q
  /\ exists older m,
       metrics (generateMetrics "20:00:02" (1 # 3) (stateAfter (spikeSession 2)))
       = older ++ [m]
       /\ 0 <= MetricData.responseTime m.
Proof.
  assert (Hrate : (cacheHitRate (stateAfter (spikeSession 2)) == 92)%Q)
    by reflexivity.
  assert (Hload : (0 <= currentLoad (stateAfter (spikeSession 2)))%Q)
    by (vm_compute; discriminate).
  assert (Hlo : (0 <= 1 # 3)%Q) by (vm_compute; discriminate).
  assert (Hhi : (1 # 3 < 1)%Q) by reflexivity.
  repeat split; try assumption.
  exact (proj2 (proj2 (response_time_is_nonnegative
                         (stateAfter (spikeSession 2)) "20:00:02" (1 # 3)
                         Hrate Hload Hlo Hhi))).
Defined.

(** C6.  At [currentLoad = 150000] with the baseline at 92 and the draw 0, a
    tick computes [requests = 150000], [targetPods = ceil(150000/3000) = 50]
    and [newPods = 50]; the raw CPU figure [(150000 / (50 * 3000)) * 100] is
    100, over the cap, so [cpuUsage] is 95.  The sample the tick appends
    carries these values and the stored pod count becomes 50. *)
Theorem baseline_tick_scenario (s : State) (timestamp : string) :
  currentLoad s = 150000%Q -> cacheHitRate s = 92%Q ->
  (GenerateMetrics.requests (currentLoad s) 0 == 150000)%Q
  /\ GenerateMetrics.targetPods (currentLoad s) 0 = Qceiling (150000 / 3000)
  /\ GenerateMetrics.targetPods (currentLoad s) 0 = 50
  /\ GenerateMetrics.newPods (currentLoad s) 0 = 50
  /\ ((150000 / (50 * 3000)) * 100 == 100)%Q
  /\ (GenerateMetrics.cpuUsage (currentLoad s) 0 == 95)%Q
  /\ pods (generateMetrics timestamp 0 s) = 50
  /\ exists older m,
       metrics (generateMetrics timestamp 0 s) = older ++ [m]
       /\ MetricData.requests m = 150000
       /\ MetricData.pods m = 50
       /\ MetricData.cpuUsage m = 95.
Proof.
  intros Hload Hrate.
  repeat match goal with |- _ /\ _ => split end;
    try (rewrite Hload; reflexivity).
  - reflexivity.
  - unfold generateMetrics; cbn [pods]. rewrite Hload. reflexivity.
  - eexists; eexists. split; [apply generateMetrics_emits|].
    rewrite Hload, Hrate. repeat split.
Qed.

Lemma baseline_tick_scenario_witness :
  currentLoad (startSimulation initialState) = 150000%Q
  /\ cacheHitRate (startSimulation initialState) = 92%Q
  /\ pods (generateMetrics "19:30:00" 0 (startSimulation initialState)) = 50
  /\ exists older m,
       metrics (generateMetrics "19:30:00" 0 (startSimulation initialState))
       = older ++ [m]
       /\ MetricData.requests m = 150000
       /\ MetricData.pods m = 50
       /\ MetricData.cpuUsage m = 95.
Proof.
  split; [reflexivity|]. split; [reflexivity|].
  exact (proj2 (proj2 (proj2 (proj2 (proj2 (proj2
           (baseline_tick_scenario
              (startSimulation initialState) "19:30:00"
              eq_refl eq_refl))))))).
Defined.

(** ** Control actions *)

(** C4.  Whatever the state before, [resetSimulation] leaves
    [isRunning = false], [currentLoad = 150000], [pods = 50] and both
    histories empty; the Reset button is always enabled. *)
Theorem reset_restores_defaults (s : State) :
  fire ClickReset s = Some (resetSimulation s)
  /\ isRunning (resetSimulation s) = false
  /\ currentLoad (resetSimulation s) = 150000%Q
  /\ pods (resetSimulation s) = 50
  /\ metrics (resetSimulation s) = []
  /\ logs (resetSimulation s) = [].
Proof. repeat split. Qed.

(** ** Reachability *)

Lemma run_reachable (es : list Event) :
  forall s s', reachable s -> run es s = Some s' -> reachable s'.
Proof.
  induction es as [|e es IH]; intros s s' Hs Hrun; cbn in Hrun.
  - now inversion Hrun; subst.
  - destruct (fire e s) as [s1|] eqn:Hfire; [|discriminate].
    eapply IH; [|exact Hrun].
    eapply reachable_fire; eassumption.
Qed.

Lemma stateAfter_reachable (es : list Event) : reachable (stateAfter es).
Proof.
  unfold stateAfter. destruct (run es initialState) as [s|] eqn:Hrun.
  - eapply run_reachable; [apply reachable_init | exact Hrun].
  - apply reachable_init.
Qed.

(** What one event leaves alone.  Every handler copies [cacheHitRate]; only
    Reset, the spike and a firing timeout write [currentLoad]. *)
Lemma fire_cacheHitRate (e : Event) (s s' : State) :
  fire e s = Some s' -> cacheHitRate s' = cacheHitRate s.
Proof.
  destruct e; cbn;
    repeat match goal with
           | |- context [if ?b then _ else _] => destruct b
           | |- context [match timeouts ?x with _ => _ end] =>
               destruct (timeouts x)
           end;
    intros H; inversion H; reflexivity.
Qed.

(** C10.  No operation writes the cache-hit-rate baseline: a tick, Start,
    Pause, Reset, the spike and the deferred revert all leave [cacheHitRate]
    as it was, so it is 92 in every state the component can reach. *)
Theorem cacheHitRate_is_never_mutated (s : State) :
  reachable s ->
  cacheHitRate s = 92%Q
  /\ (forall timestamp random,
        cacheHitRate (generateMetrics timestamp random s) = cacheHitRate s)
  /\ cacheHitRate (startSimulation s) = cacheHitRate s
  /\ cacheHitRate (stopSimulation s) = cacheHitRate s
  /\ cacheHitRate (resetSimulation s) = cacheHitRate s
  /\ cacheHitRate (simulateTrafficSpike s) = cacheHitRate s
  /\ (forall t rest, cacheHitRate (runTimeout t rest s) = cacheHitRate s)
  /\ (forall e s', fire e s = Some s' -> cacheHitRate s' = 92%Q).
Proof.
  intros Hs.
  assert (H92 : cacheHitRate s = 92%Q).
  { induction Hs as [|s s' e _ IH Hfire]; [reflexivity|].
    rewrite (fire_cacheHitRate _ _ _ Hfire). exact IH. }
  repeat split; try assumption.
  intros e s' Hfire. rewrite (fire_cacheHitRate _ _ _ Hfire). exact H92.
Qed.

Lemma cacheHitRate_is_never_mutated_witness :
  reachable (stateAfter (spikeSession 4 ++ [TimeoutFires; ClickReset]))
  /\ cacheHitRate (stateAfter (spikeSession 4 ++ [TimeoutFires; ClickReset]))
     = 92%Q.
Proof.
  split; [apply stateAfter_reachable|].
  exact (proj1 (cacheHitRate_is_never_mutated
                  (stateAfter (spikeSession 4 ++ [TimeoutFires; ClickReset]))
                  (stateAfter_reachable _))).
Defined.

(** ** The metrics buffer *)

Lemma slice_last_length {A : Type} (n : nat) (arr : list A) :
  (List.length (Js.slice_last n arr) <= n)%nat.
Proof. unfold Js.slice_last. rewrite length_skipn. lia. Qed.

Lemma slice_last_short {A : Type} (n : nat) (arr : list A) :
  (List.length arr <= n)%nat -> Js.slice_last n arr = arr.
Proof.
  intros Hlen. unfold Js.slice_last.
  replace (List.length arr - n)%nat with 0%nat by lia. reflexivity.
Qed.

Lemma slice_last_full {A : Type} (n : nat) (x : A) (arr : list A) :
  List.length (x :: arr) = S n -> Js.slice_last n (x :: arr) = arr.
Proof.
  intros Hlen. unfold Js.slice_last. rewrite Hlen.
  replace (S n - n)%nat with 1%nat by lia. reflexivity.
Qed.

Lemma metrics_length_after_tick (timestamp : string) (random : Q) (s : State) :
  (List.length (metrics (generateMetrics timestamp random s)) <= 20)%nat.
Proof.
  rewrite generateMetrics_emits, length_app. cbn [List.length].
  pose proof (slice_last_length 19 (metrics s)). lia.
Qed.

Lemma fire_metrics_length (e : Event) (s s' : State) :
  fire e s = Some s' ->
  (List.length (metrics s) <= 20)%nat ->
  (List.length (metrics s') <= 20)%nat.
Proof.
  destruct e; cbn;
    repeat match goal with
           | |- context [if ?b then _ else _] => destruct b
           | |- context [match timeouts ?x with _ => _ end] =>
               destruct (timeouts x)
           end;
    intros H Hlen; inversion H; subst;
    try apply metrics_length_after_tick; cbn; try assumption; lia.
Qed.

Lemma reachable_metrics_length (s : State) :
  reachable s -> (List.length (metrics s) <= 20)%nat.
Proof.
  induction 1 as [|s s' e _ IH Hfire]; [cbn; lia|].
  eapply fire_metrics_length; eassumption.
Qed.

(** C8.  In every reachable state the metrics buffer holds at most 20
    samples.  A tick puts its sample at the end: while the buffer holds fewer
    than 20 samples nothing is dropped, and when it holds 20 the sample at the
    front, the oldest, is the one that goes. *)
Theorem metrics_buffer_is_a_fifo_of_20
  (s : State) (timestamp : string) (random : Q) :
  reachable s ->
  let m :=
    GenerateMetrics.newMetric (currentLoad s) (cacheHitRate s) timestamp random in
  let s' := generateMetrics timestamp random s in
  (List.length (metrics s) <= 20)%nat
  /\ (List.length (metrics s') <= 20)%nat
  /\ ((List.length (metrics s) < 20)%nat -> metrics s' = metrics s ++ [m])
  /\ (forall oldest rest,
        metrics s = oldest :: rest -> List.length (metrics s) = 20%nat ->
        metrics s' = rest ++ [m]).
Proof.
  intros Hs m s'. split; [now apply reachable_metrics_length|].
  split; [apply metrics_length_after_tick|]. split.
  - intros Hlen. unfold s'. rewrite generateMetrics_emits.
    rewrite slice_last_short by lia. reflexivity.
  - intros oldest rest Heq Hlen. unfold s'. rewrite generateMetrics_emits.
    rewrite Heq in *. rewrite (slice_last_full 19) by exact Hlen. reflexivity.
Qed.

Lemma metrics_buffer_is_a_fifo_of_20_witness :
  reachable (stateAfter (calmSession 23))
  /\ List.length (metrics (stateAfter (calmSession 23))) = 20%nat
  /\ (List.length
        (metrics (generateMetrics "19:30:23" (1 # 4) (stateAfter (calmSession 23))))
      <= 20)%nat.
Proof.
  split; [apply stateAfter_reachable|]. split; [vm_compute; reflexivity|].
  exact (proj1 (proj2 (metrics_buffer_is_a_fifo_of_20
                         (stateAfter (calmSession 23)) "19:30:23" (1 # 4)
                         (stateAfter_reachable _)))).
Defined.

(** ** Log derivation *)

Section TickLogs.

Variables (load rate : Q) (prevPods : Z) (timestamp : string) (random : Q).

Lemma newLogs_split :
  GenerateMetrics.newLogs load rate prevPods timestamp random
  = GenerateMetrics.scalingLog load prevPods timestamp random
    ++ eventLogs load rate timestamp random.
Proof. reflexivity. Qed.

Lemma eventLogs_no_scaling :
  filter isScalingEntry (eventLogs load rate timestamp random) = [].
Proof.
  unfold eventLogs. repeat rewrite filter_app.
  unfold GenerateMetrics.cpuLog, GenerateMetrics.cacheLog,
    GenerateMetrics.latencyLog, GenerateMetrics.trafficLog,
    GenerateMetrics.peakLog.
  repeat match goal with
         | |- context [if ?b then [_] else []] => destruct b
         end;
    reflexivity.
Qed.

Lemma eventLogs_length :
  (List.length (eventLogs load rate timestamp random) <= 5)%nat.
Proof.
  unfold eventLogs. repeat rewrite length_app.
  unfold GenerateMetrics.cpuLog, GenerateMetrics.cacheLog,
    GenerateMetrics.latencyLog, GenerateMetrics.trafficLog,
    GenerateMetrics.peakLog.
  repeat match goal with
         | |- context [if ?b then [_] else []] => destruct b
         end;
    cbn [List.length]; lia.
Qed.

Lemma scalingLog_length :
  (List.length (GenerateMetrics.scalingLog load prevPods timestamp random)
   <= 1)%nat.
Proof.
  unfold GenerateMetrics.scalingLog.
  destruct (negb _); cbn [List.length]; lia.
Qed.

(** At most six entries are pushed in one tick. *)
Lemma newLogs_length :
  (List.length (GenerateMetrics.newLogs load rate prevPods timestamp random)
   <= 6)%nat.
Proof.
  rewrite newLogs_split, length_app.
  pose proof scalingLog_length. pose proof eventLogs_length. lia.
Qed.

(** No scaling entry when the pod count did not change. *)
Lemma scalingLog_unchanged :
  GenerateMetrics.newPods load random = prevPods ->
  GenerateMetrics.scalingLog load prevPods timestamp random = [].
Proof.
  intros Heq. unfold GenerateMetrics.scalingLog.
  rewrite Heq, Z.eqb_refl. reflexivity.
Qed.

End TickLogs.

(** What a tick does to the log buffer. *)
Lemma generateMetrics_logs (timestamp : string) (random : Q) (s : State) :
  let newLogs :=
    GenerateMetrics.newLogs
      (currentLoad s) (cacheHitRate s) (pods s) timestamp random in
  logs (generateMetrics timestamp random s)
  = match newLogs with
    | [] => logs s
    | _ :: _ => newLogs ++ Js.slice_first 49 (logs s)
    end.
Proof.
  intros newLogs. unfold generateMetrics. cbn [logs]. fold newLogs.
  destruct newLogs; reflexivity.
Qed.

(** C7.  When the pod count computed by a tick differs from the stored one,
    the tick pushes exactly one scaling entry (component K8S), first in
    [newLogs] and so first in the log buffer; its level is INFO and its
    message says "up" when the count grew, WARN and "down" when it shrank.
    The tick stores the new count in [pods], where the next tick reads it. *)
Theorem pod_change_is_logged_once
  (s : State) (timestamp : string) (random : Q) :
  let newPods := GenerateMetrics.newPods (currentLoad s) random in
  let newLogs :=
    GenerateMetrics.newLogs
      (currentLoad s) (cacheHitRate s) (pods s) timestamp random in
  let s' := generateMetrics timestamp random s in
  newPods <> pods s ->
  (exists entry rest,
      newLogs = entry :: rest
      /\ isScalingEntry entry = true
      /\ filter isScalingEntry rest = []
      /\ LogEntry.component entry = K8S
      /\ (pods s < newPods ->
          LogEntry.level entry = INFO
          /\ LogEntry.message entry
             = ("Scaling up to " ++ Js.toString newPods
                ++ " pods (was " ++ Js.toString (pods s) ++ ")")%string)
      /\ (newPods < pods s ->
          LogEntry.level entry = WARN
          /\ LogEntry.message entry
             = ("Scaling down to " ++ Js.toString newPods
                ++ " pods (was " ++ Js.toString (pods s) ++ ")")%string))
  /\ List.length (filter isScalingEntry newLogs) = 1%nat
  /\ logs s' = newLogs ++ Js.slice_first 49 (logs s)
  /\ pods s' = newPods.
Proof.
  intros newPods newLogs s' Hneq.
  assert (Hsplit :
    newLogs
    = {| LogEntry.timestamp := timestamp;
         LogEntry.level := if newPods >? pods s then INFO else WARN;
         LogEntry.component := K8S;
         LogEntry.message :=
           ("Scaling " ++ (if newPods >? pods s then "up" else "down")
            ++ " to " ++ Js.toString newPods
            ++ " pods (was " ++ Js.toString (pods s) ++ ")")%string |}
      :: eventLogs (currentLoad s) (cacheHitRate s) timestamp random).
  { unfold newLogs. rewrite newLogs_split.
    unfold GenerateMetrics.scalingLog. fold newPods.
    apply Z.eqb_neq in Hneq. rewrite Hneq. reflexivity. }
  split; [|split; [|split]].
  - eexists; eexists. split; [exact Hsplit|].
    split; [reflexivity|]. split; [apply eventLogs_no_scaling|].
    split; [reflexivity|].
    cbn [LogEntry.level LogEntry.message]. rewrite Z.gtb_ltb. split.
    + intros Hup. apply Z.ltb_lt in Hup. rewrite Hup. split; reflexivity.
    + intros Hdown.
      assert (Hnot : (pods s <? newPods) = false) by (apply Z.ltb_ge; lia).
      rewrite Hnot. split; reflexivity.
  - rewrite Hsplit. cbn [filter].
    replace (isScalingEntry _) with true by reflexivity.
    rewrite eventLogs_no_scaling. reflexivity.
  - unfold s'. rewrite generateMetrics_logs. fold newLogs.
    rewrite Hsplit. reflexivity.
  - reflexivity.
Qed.

Lemma pod_change_is_logged_once_witness :
  GenerateMetrics.newPods
    (currentLoad (stateAfter (spikeSession 0))) 0 <> pods (stateAfter (spikeSession 0))
  /\ List.length
       (filter isScalingEntry
          (GenerateMetrics.newLogs
             (currentLoad (stateAfter (spikeSession 0)))
             (cacheHitRate (stateAfter (spikeSession 0)))
             (pods (stateAfter (spikeSession 0))) "20:00:00" 0)) = 1%nat
  /\ pods (generateMetrics "20:00:00" 0 (stateAfter (spikeSession 0))) = 1000.
Proof.
  assert (Hneq :
    GenerateMetrics.newPods (currentLoad (stateAfter (spikeSession 0))) 0
    <> pods (stateAfter (spikeSession 0)))
    by (vm_compute; discriminate).
  split; [exact Hneq|].
  pose proof (pod_change_is_logged_once
                (stateAfter (spikeSession 0)) "20:00:00" 0 Hneq)
    as (_ & Hone & _ & Hpods).
  split; [exact Hone|]. rewrite Hpods. reflexivity.
Defined.

(** ** The log buffer *)

(** The entries of a tick go in front of the older ones. *)
Lemma logs_newest_first (timestamp : string) (random : Q) (s : State) :
  let newLogs :=
    GenerateMetrics.newLogs
      (currentLoad s) (cacheHitRate s) (pods s) timestamp random in
  newLogs <> [] ->
  logs (generateMetrics timestamp random s)
  = newLogs ++ Js.slice_first 49 (logs s).
Proof.
  intros newLogs Hne. rewrite generateMetrics_logs. fold newLogs.
  destruct newLogs; [contradiction | reflexivity].
Qed.

(** Only the older entries are cut (to 49), so a tick leaves up to
    [49 + 6] entries. *)
Lemma logs_length_after_tick (timestamp : string) (random : Q) (s : State) :
  (List.length (logs s) <= 55)%nat ->
  (List.length (logs (generateMetrics timestamp random s)) <= 55)%nat.
Proof.
  intros Hlen. rewrite generateMetrics_logs.
  pose proof (newLogs_length
                (currentLoad s) (cacheHitRate s) (pods s) timestamp random)
    as H6.
  destruct (GenerateMetrics.newLogs _ _ _ _ _) as [|e l] eqn:Hnew;
    [exact Hlen|].
  rewrite length_app. unfold Js.slice_first. rewrite length_firstn. lia.
Qed.

Lemma reachable_logs_length (s : State) :
  reachable s -> (List.length (logs s) <= 55)%nat.
Proof.
  induction 1 as [|s s' e _ IH Hfire]; [cbn; lia|].
  revert Hfire. destruct e; cbn;
    repeat match goal with
           | |- context [if ?b then _ else _] => destruct b
           | |- context [match timeouts ?x with _ => _ end] =>
               destruct (timeouts x)
           end;
    intros H; inversion H; subst;
    try (now apply logs_length_after_tick); cbn; try assumption; lia.
Qed.

(** C1, evaluated on the code.  Start, press the spike button and let nine
    ticks pass: the log buffer holds 46 entries.  The tenth tick pushes five
    entries; they go in front, but [prev.slice(0, 49)] keeps all 46 older
    ones, and the buffer holds 51 entries. *)
Theorem log_buffer_holds_51_after_spike :
  let s := stateAfter (spikeSession 9) in
  let newLogs :=
    GenerateMetrics.newLogs
      (currentLoad s) (cacheHitRate s) (pods s) "20:00:00" 0 in
  run (spikeSession 9) initialState = Some s
  /\ fire (IntervalFires "20:00:00" 0) s
     = Some (generateMetrics "20:00:00" 0 s)
  /\ List.length (logs s) = 46%nat
  /\ List.length newLogs = 5%nat
  /\ logs (generateMetrics "20:00:00" 0 s) = newLogs ++ logs s
  /\ List.length (logs (generateMetrics "20:00:00" 0 s)) = 51%nat.
Proof.
  cbv zeta.
  repeat match goal with |- _ /\ _ => split end; vm_compute; reflexivity.
Qed.

(** ** The traffic spike *)

Lemma fire_no_click_timeouts (e : Event) (s s' : State) :
  isClick e = false -> fire e s = Some s' ->
  timeouts s' = skipn (if isTimeoutFires e then 1 else 0) (timeouts s)
  /\ (isTimeoutFires e = false -> currentLoad s' = currentLoad s).
Proof.
  destruct e; cbn; try discriminate; intros _.
  - destruct (isRunning s && validDraw random); [|discriminate].
    intros H; inversion H; subst. split; reflexivity.
  - destruct (timeouts s) as [|t rest]; [discriminate|].
    intros H; inversion H; subst. split; [reflexivity | discriminate].
Qed.

(** Without a click, the queue of timeouts only loses its front, one entry
    per timeout that fires, and the load moves only when a timeout fires. *)
Lemma run_no_click_timeouts (es : list Event) :
  forall s s',
    existsb isClick es = false -> run es s = Some s' ->
    timeouts s' = skipn (timeoutsFired es) (timeouts s)
    /\ (timeoutsFired es = 0%nat -> currentLoad s' = currentLoad s).
Proof.
  unfold timeoutsFired.
  induction es as [|e es IH]; intros s s' Hclick Hrun; cbn in Hrun.
  - inversion Hrun; subst. split; reflexivity.
  - cbn [existsb] in Hclick. apply orb_false_iff in Hclick as [He Hes].
    destruct (fire e s) as [s1|] eqn:Hfire; [|discriminate].
    destruct (fire_no_click_timeouts _ _ _ He Hfire) as [Hq Hload].
    destruct (IH _ _ Hes Hrun) as [Hq' Hload'].
    cbn [filter]. destruct (isTimeoutFires e); cbn [List.length].
    + split; [|discriminate].
      rewrite Hq', Hq, skipn_skipn. f_equal. lia.
    + split.
      * rewrite Hq', Hq. reflexivity.
      * intros H0. rewrite (Hload' H0). now apply Hload.
Qed.

(** C5.  The spike sets [currentLoad] to 3000000 at once and queues one
    timeout of 15000 ms that reverts the load to 800000.  If no button is
    pressed afterwards, then once the timeouts queued before the spike have
    fired, the spike's own timeout is due: it fires, [currentLoad] becomes
    800000, and no timeout is left.  When nothing was queued before the
    spike, only ticks lie in between and the load stays 3000000 until
    then. *)
Theorem spike_raises_load_then_reverts
  (s s1 s2 : State) (es : list Event) :
  fire ClickSpike s = Some s1 ->
  existsb isClick es = false ->
  timeoutsFired es = List.length (timeouts s) ->
  run es s1 = Some s2 ->
  currentLoad s1 = 3000000%Q
  /\ timeouts s1 = timeouts s ++ [ {| delay := 15000; revertLoad := 800000 |} ]
  /\ (timeouts s = [] -> currentLoad s2 = 3000000%Q)
  /\ exists s3,
       fire TimeoutFires s2 = Some s3
       /\ currentLoad s3 = 800000%Q
       /\ timeouts s3 = [].
Proof.
  intros Hspike Hclick Hfired Hrun.
  cbn in Hspike. destruct (isRunning s); [|discriminate].
  inversion Hspike; subst s1; clear Hspike.
  destruct (run_no_click_timeouts _ _ _ Hclick Hrun) as [Hq Hload].
  cbn [simulateTrafficSpike timeouts currentLoad] in Hq, Hload.
  split; [reflexivity|]. split; [reflexivity|]. split.
  - intros Hnil. apply Hload. rewrite Hfired, Hnil. reflexivity.
  - rewrite Hfired, skipn_app, skipn_all, Nat.sub_diag in Hq.
    cbn in Hq. cbn [fire]. rewrite Hq.
    eexists. split; [reflexivity|]. split; reflexivity.
Qed.

Lemma spike_raises_load_then_reverts_witness :
  fire ClickSpike (startSimulation initialState)
  = Some (simulateTrafficSpike (startSimulation initialState))
  /\ existsb isClick (repeat (IntervalFires "20:00:00" 0%Q) 15) = false
  /\ timeoutsFired (repeat (IntervalFires "20:00:00" 0%Q) 15)
     = List.length (timeouts (startSimulation initialState))
  /\ run (repeat (IntervalFires "20:00:00" 0%Q) 15)
       (simulateTrafficSpike (startSimulation initialState))
     = Some (stateAfter (spikeSession 15))
  /\ currentLoad (simulateTrafficSpike (startSimulation initialState))
     = 3000000%Q
  /\ currentLoad (stateAfter (spikeSession 15)) = 3000000%Q
  /\ exists s3,
       fire TimeoutFires (stateAfter (spikeSession 15)) = Some s3
       /\ currentLoad s3 = 800000%Q
       /\ timeouts s3 = [].
Proof.
  assert (H1 : fire ClickSpike (startSimulation initialState)
               = Some (simulateTrafficSpike (startSimulation initialState)))
    by reflexivity.
  assert (H2 : existsb isClick (repeat (IntervalFires "20:00:00" 0%Q) 15)
               = false) by reflexivity.
  assert (H3 : timeoutsFired (repeat (IntervalFires "20:00:00" 0%Q) 15)
               = List.length (timeouts (startSimulation initialState)))
    by reflexivity.
  assert (H4 : run (repeat (IntervalFires "20:00:00" 0%Q) 15)
                 (simulateTrafficSpike (startSimulation initialState))
               = Some (stateAfter (spikeSession 15)))
    by (vm_compute; reflexivity).
  pose proof (spike_raises_load_then_reverts _ _ _ _ H1 H2 H3 H4)
    as (Ha & _ & Hb & Hc).
  exact (conj H1 (conj H2 (conj H3 (conj H4
           (conj Ha (conj (Hb eq_refl) Hc)))))).
Defined.

(** ** Load levels and pending timeouts *)

Lemma validDraw_spec (random : Q) :
  validDraw random = true -> (0 <= random /\ random < 1)%Q.
Proof.
  unfold validDraw, Js.lt. intros H.
  apply andb_true_iff in H as [Hlo Hhi]. split.
  - now apply Qle_bool_iff.
  - apply Qnot_le_lt. intros Hle. apply Qle_bool_iff in Hle.
    rewrite Hle in Hhi. discriminate.
Qed.

Lemma loadLevel_bounds (load : Q) :
  loadLevel load -> (150000 <= load /\ load <= 3000000)%Q.
Proof.
  intros [H | [H | H]]; subst load; split; vm_compute; discriminate.
Qed.

Lemma reachable_levels (s : State) :
  reachable s ->
  loadLevel (currentLoad s)
  /\ Forall (fun t => t = spikeTimeout) (timeouts s).
Proof.
  induction 1 as [|s s' e _ [IHload IHq] Hfire].
  - split; [left; reflexivity | constructor].
  - destruct e; cbn in Hfire.
    + destruct (isRunning s); inversion Hfire; subst. now split.
    + destruct (isRunning s); inversion Hfire; subst. now split.
    + inversion Hfire; subst. split; [left; reflexivity | exact IHq].
    + destruct (isRunning s); inversion Hfire; subst. split.
      * right; right; reflexivity.
      * cbn [timeouts simulateTrafficSpike]. apply Forall_app. split;
          [exact IHq | repeat constructor].
    + destruct (isRunning s && validDraw random); inversion Hfire; subst.
      now split.
    + destruct (timeouts s) as [|t rest] eqn:Hq; inversion Hfire; subst.
      inversion IHq; subst. split; [right; left; reflexivity | assumption].
Qed.

Lemma reachable_cacheHitRate (s : State) :
  reachable s -> cacheHitRate s = 92%Q.
Proof.
  induction 1 as [|s s' e _ IH Hfire]; [reflexivity|].
  rewrite (fire_cacheHitRate _ _ _ Hfire). exact IH.
Qed.

(** X1.  [currentLoad] only ever holds one of the three constants the code
    writes (150000, 800000, 3000000), and every pending timeout is the one a
    spike queues: 15000 ms, reverting the load to 800000. *)
Theorem load_is_one_of_three_levels (s : State) :
  reachable s ->
  loadLevel (currentLoad s)
  /\ Forall (fun t => t = spikeTimeout) (timeouts s).
Proof. apply reachable_levels. Qed.

Lemma load_is_one_of_three_levels_witness :
  reachable (stateAfter (spikeSession 3 ++ [ClickSpike]))
  /\ loadLevel (currentLoad (stateAfter (spikeSession 3 ++ [ClickSpike])))
  /\ Forall (fun t => t = spikeTimeout)
       (timeouts (stateAfter (spikeSession 3 ++ [ClickSpike]))).
Proof.
  split; [apply stateAfter_reachable|].
  exact (load_is_one_of_three_levels
           (stateAfter (spikeSession 3 ++ [ClickSpike]))
           (stateAfter_reachable _)).
Defined.

(** X2.  Reset does not cancel the revert of a spike.  From a running state,
    a spike followed by Reset leaves a timeout pending; when it fires, the
    simulation is stopped, the histories are empty and [pods] is 50, yet
    [currentLoad] is 800000 and not the reset value 150000. *)
Theorem revert_fires_after_reset (s : State) :
  reachable s -> isRunning s = true ->
  exists s',
    run [ClickSpike; ClickReset; TimeoutFires] s = Some s'
    /\ isRunning s' = false
    /\ metrics s' = [] /\ logs s' = [] /\ pods s' = 50
    /\ currentLoad s' = 800000%Q
    /\ currentLoad s' <> currentLoad (resetSimulation s).
Proof.
  intros Hs Hrun.
  destruct (reachable_levels s Hs) as [_ Hq].
  cbn. rewrite Hrun. cbn.
  destruct (timeouts s) as [|t rest] eqn:Hts; cbn.
  - eexists. split; [reflexivity|]. repeat split. discriminate.
  - inversion Hq; subst.
    eexists. split; [reflexivity|]. repeat split. discriminate.
Qed.

Lemma revert_fires_after_reset_witness :
  reachable (stateAfter (calmSession 2))
  /\ isRunning (stateAfter (calmSession 2)) = true
  /\ exists s',
       run [ClickSpike; ClickReset; TimeoutFires] (stateAfter (calmSession 2))
       = Some s'
       /\ isRunning s' = false
       /\ metrics s' = [] /\ logs s' = [] /\ pods s' = 50
       /\ currentLoad s' = 800000%Q
       /\ currentLoad s' <> currentLoad (resetSimulation (stateAfter (calmSession 2))).
Proof.
  split; [apply stateAfter_reachable|]. split; [reflexivity|].
  exact (revert_fires_after_reset
           (stateAfter (calmSession 2)) (stateAfter_reachable _) eq_refl).
Defined.

(** X3.  A second spike does not restart the clock of the first: after the
    spike button is pressed twice, the first timeout to fire already brings
    the load down to 800000 although a timeout of the second spike is still
    pending. *)
Theorem second_spike_is_cut_short (s : State) :
  reachable s -> isRunning s = true ->
  exists s',
    run [ClickSpike; ClickSpike; TimeoutFires] s = Some s'
    /\ currentLoad s' = 800000%Q
    /\ List.length (timeouts s') = S (List.length (timeouts s))
    /\ In spikeTimeout (timeouts s')
    /\ isRunning s' = true.
Proof.
  intros Hs Hrun.
  destruct (reachable_levels s Hs) as [_ Hq].
  unfold run, fire. rewrite Hrun.
  cbn [simulateTrafficSpike isRunning timeouts]. rewrite Hrun.
  cbn [simulateTrafficSpike isRunning timeouts].
  destruct (timeouts s) as [|t rest] eqn:Hts.
  - eexists. split; [reflexivity|]. cbn.
    split; [reflexivity|]. split; [reflexivity|].
    split; [left; reflexivity | exact Hrun].
  - inversion Hq; subst. eexists. split; [reflexivity|]. cbn.
    split; [reflexivity|]. split.
    + repeat rewrite length_app. cbn. lia.
    + split; [|exact Hrun].
      apply in_or_app. right. left. reflexivity.
Qed.

Lemma second_spike_is_cut_short_witness :
  reachable (stateAfter (calmSession 1))
  /\ isRunning (stateAfter (calmSession 1)) = true
  /\ exists s',
       run [ClickSpike; ClickSpike; TimeoutFires] (stateAfter (calmSession 1))
       = Some s'
       /\ currentLoad s' = 800000%Q
       /\ List.length (timeouts s')
          = S (List.length (timeouts (stateAfter (calmSession 1))))
       /\ In spikeTimeout (timeouts s')
       /\ isRunning s' = true.
Proof.
  split; [apply stateAfter_reachable|]. split; [reflexivity|].
  exact (second_spike_is_cut_short
           (stateAfter (calmSession 1)) (stateAfter_reachable _) eq_refl).
Defined.

(** ** Ticks at the load levels *)

Section Comparisons.
Local Open Scope Q_scope.

Lemma gt_spec (a b : Q) : Js.gt a b = true <-> b < a.
Proof.
  unfold Js.gt. rewrite negb_true_iff. split.
  - intros H. apply Qnot_le_lt. intros Hle.
    apply Qle_bool_iff in Hle. congruence.
  - intros H. destruct (Qle_bool a b) eqn:E; [|reflexivity].
    apply Qle_bool_iff in E. exfalso. exact (Qlt_not_le _ _ H E).
Qed.

Lemma gt_false (a b : Q) : Js.gt a b = false <-> a <= b.
Proof.
  unfold Js.gt. rewrite negb_false_iff. apply Qle_bool_iff.
Qed.

Lemma lt_spec (a b : Q) : Js.lt a b = true <-> a < b.
Proof. apply (gt_spec b a). Qed.

Lemma lt_false (a b : Q) : Js.lt a b = false <-> b <= a.
Proof. apply (gt_false b a). Qed.

End Comparisons.

Section BusyTick.
Local Open Scope Q_scope.

Variables (load random : Q).
Hypothesis load_min : 150000 <= load.
Hypothesis random_nonneg : 0 <= random.

Lemma requests_min : 150000 <= GenerateMetrics.requests load random.
Proof.
  unfold GenerateMetrics.requests, GenerateMetrics.baseRequests. lra.
Qed.

Lemma targetPods_min : (50 <= GenerateMetrics.targetPods load random)%Z.
Proof.
  unfold GenerateMetrics.targetPods.
  change 50%Z with (Qceiling (inject_Z 50)).
  apply Qceiling_resp_le. apply Qle_shift_div_l; [reflexivity|].
  pose proof requests_min. change (inject_Z 50) with 50. lra.
Qed.


Lemma Qdiv_times (x c : Q) : ~ c == 0 -> x / c * c == x.
Proof. intros Hc. field. exact Hc. Qed.

Lemma targetPods_tight :
  inject_Z (GenerateMetrics.targetPods load random) * 3000
  < GenerateMetrics.requests load random + 3000.
Proof.
  unfold GenerateMetrics.targetPods.
  pose proof (Qceiling_lt (GenerateMetrics.requests load random / 3000)) as H.
  unfold Zminus in H. rewrite inject_Z_plus, inject_Z_opp in H.
  change (inject_Z (-1)) with (-1) in H.
  pose proof (Qdiv_times (GenerateMetrics.requests load random) 3000) as Hd.
  set (q := GenerateMetrics.requests load random / 3000) in *.
  assert (H3 : ~ 3000 == 0) by discriminate.
  specialize (Hd H3).
  set (c := inject_Z (Qceiling q)) in *. change (inject_Z 1) with 1 in H.
  clearbody c q. lra.
Qed.

Lemma newPods_le_targetPods :
  (GenerateMetrics.newPods load random <= GenerateMetrics.targetPods load random)%Z.
Proof.
  unfold GenerateMetrics.newPods. pose proof targetPods_min. lia.
Qed.

Lemma cpuUsage_pinned : GenerateMetrics.cpuUsage load random == 95.
Proof.
  unfold GenerateMetrics.cpuUsage. apply Q.min_l.
  pose proof newPods_le_targetPods as Hle. rewrite Zle_Qle in Hle.
  pose proof targetPods_tight as Ht. pose proof requests_min as Hr.
  assert (Hp : (50 <= GenerateMetrics.newPods load random)%Z)
    by (unfold GenerateMetrics.newPods; lia).
  rewrite Zle_Qle in Hp. change (inject_Z 50) with 50 in Hp.
  set (np := inject_Z (GenerateMetrics.newPods load random)) in *.
  set (r := GenerateMetrics.requests load random) in *.
  assert (Hpos : 0 < np * 3000) by lra.
  assert (Hq : 95 / 100 <= r / (np * 3000)).
  { apply Qle_shift_div_l; [exact Hpos|].
    assert (H95 : 95 / 100 == 19 # 20) by reflexivity. rewrite H95. lra. }
  pose proof (Qdiv_times 95 100) as Hd.
  assert (H95 : 95 / 100 == 19 # 20) by reflexivity. rewrite H95 in Hq.
  set (x := r / (np * 3000)) in *. clearbody x r np. lra.
Qed.

End BusyTick.

Section LevelTick.
Local Open Scope Q_scope.

Variables (load random : Q).
Hypothesis load_level : loadLevel load.
Hypothesis random_valid : validDraw random = true.

Lemma level_requests_range :
  150000 <= GenerateMetrics.requests load random
  /\ GenerateMetrics.requests load random < 3050000.
Proof.
  destruct (loadLevel_bounds _ load_level) as [Hlo Hhi].
  destruct (validDraw_spec _ random_valid) as [H0 H1].
  unfold GenerateMetrics.requests, GenerateMetrics.baseRequests. lra.
Qed.

Lemma level_targetPods_range :
  (50 <= GenerateMetrics.targetPods load random <= 1017)%Z.
Proof.
  destruct (loadLevel_bounds _ load_level) as [Hlo Hhi].
  destruct (validDraw_spec _ random_valid) as [H0 H1].
  split; [now apply targetPods_min|].
  unfold GenerateMetrics.targetPods.
  change 1017%Z with (Qceiling (inject_Z 1017)).
  apply Qceiling_resp_le. apply Qle_shift_div_r; [reflexivity|].
  destruct level_requests_range as [_ Hr].
  change (inject_Z 1017) with 1017. lra.
Qed.

Lemma level_newPods :
  GenerateMetrics.newPods load random = GenerateMetrics.targetPods load random.
Proof.
  unfold GenerateMetrics.newPods. pose proof level_targetPods_range. lia.
Qed.

End LevelTick.

Lemma tickPods_range (n : Z) : tickPods n -> 50 <= n <= 1017.
Proof.
  intros [Hn | (load & random & Hload & Hdraw & Hn)]; subst n; [lia|].
  rewrite level_newPods by assumption.
  now apply level_targetPods_range.
Qed.

Lemma reachable_tickPods (s : State) : reachable s -> tickPods (pods s).
Proof.
  induction 1 as [|s s' e Hs IH Hfire]; [left; reflexivity|].
  destruct e; cbn in Hfire.
  - destruct (isRunning s); inversion Hfire; subst. exact IH.
  - destruct (isRunning s); inversion Hfire; subst. exact IH.
  - inversion Hfire; subst. left; reflexivity.
  - destruct (isRunning s); inversion Hfire; subst. exact IH.
  - destruct (isRunning s && validDraw random) eqn:Hg; inversion Hfire; subst.
    apply andb_true_iff in Hg as [_ Hdraw].
    right. exists (currentLoad s), random. split; [|split].
    + now apply reachable_levels.
    + exact Hdraw.
    + reflexivity.
  - destruct (timeouts s); inversion Hfire; subst. exact IH.
Qed.

Section Conditions.
Local Open Scope Q_scope.

Variables (load random : Q).
Hypothesis random_valid : validDraw random = true.

Lemma cpu_condition :
  150000 <= load -> Js.gt (GenerateMetrics.cpuUsage load random) 80 = true.
Proof.
  intros Hload. destruct (validDraw_spec _ random_valid) as [H0 _].
  apply gt_spec. pose proof (cpuUsage_pinned load random Hload H0) as H.
  set (c := GenerateMetrics.cpuUsage load random) in *. clearbody c. lra.
Qed.

Lemma cache_condition :
  Js.lt (GenerateMetrics.hitRate load 92) 90 = true <-> 400000 < load.
Proof.
  pose proof (Qdiv_times load 1000000) as Hd.
  assert (H0 : ~ 1000000 == 0) by discriminate. specialize (Hd H0).
  unfold GenerateMetrics.hitRate.
  set (q := load / 1000000) in *. clearbody q.
  rewrite lt_spec, Q.max_lub_lt_iff. split.
  - intros [_ H]. lra.
  - intros H. split; lra.
Qed.

Lemma latency_condition_low :
  0 <= load -> load <= 150000 ->
  Js.gt (GenerateMetrics.responseTime load 92 random) 150 = false.
Proof.
  intros Hlo Hhi. destruct (validDraw_spec _ random_valid) as [H0 H1].
  apply gt_false.
  unfold GenerateMetrics.responseTime, GenerateMetrics.baseResponseTime,
    GenerateMetrics.cacheFactor.
  assert (Hrate : 92 == 92) by reflexivity.
  destruct (hitRate_range load 92 Hlo Hrate) as [H88 _].
  assert (HL : GenerateMetrics.loadFactor load random == 1).
  { unfold GenerateMetrics.loadFactor. apply Q.max_l.
    apply Qle_shift_div_r; [reflexivity|].
    unfold GenerateMetrics.requests, GenerateMetrics.baseRequests. lra. }
  rewrite HL.
  pose proof (Qdiv_times (GenerateMetrics.hitRate load 92) 100) as Hd.
  assert (H100 : ~ 100 == 0) by discriminate. specialize (Hd H100).
  set (h := GenerateMetrics.hitRate load 92) in *.
  set (q := h / 100) in *. clearbody q h.
  assert (H25 : 2.5 == 5 # 2) by reflexivity. rewrite H25. lra.
Qed.

Lemma latency_condition_high :
  800000 <= load ->
  Js.gt (GenerateMetrics.responseTime load 92 random) 150 = true.
Proof.
  intros Hlo. destruct (validDraw_spec _ random_valid) as [H0 H1].
  apply gt_spec.
  unfold GenerateMetrics.responseTime, GenerateMetrics.baseResponseTime,
    GenerateMetrics.cacheFactor.
  assert (Hrate : 92 == 92) by reflexivity.
  assert (Hpos : 0 <= load) by lra.
  destruct (hitRate_range load 92 Hpos Hrate) as [_ H92].
  assert (HL : 4 <= GenerateMetrics.loadFactor load random).
  { unfold GenerateMetrics.loadFactor.
    eapply Qle_trans; [|apply Q.le_max_r].
    apply Qle_shift_div_l; [reflexivity|].
    unfold GenerateMetrics.requests, GenerateMetrics.baseRequests. lra. }
  pose proof (Qdiv_times (GenerateMetrics.hitRate load 92) 100) as Hd.
  assert (H100 : ~ 100 == 0) by discriminate. specialize (Hd H100).
  set (h := GenerateMetrics.hitRate load 92) in *.
  set (q := h / 100) in *.
  set (L := GenerateMetrics.loadFactor load random) in *. clearbody q h L.
  assert (H25 : 2.5 == 5 # 2) by reflexivity. rewrite H25.
  assert (Hf : 79 # 50 <= (5 # 2) - q) by lra.
  assert (Hprod : 4 * (79 # 50) <= L * ((5 # 2) - q)).
  { apply Qmult_le_compat_nonneg; split; try lra. }
  lra.
Qed.

Lemma traffic_condition :
  Js.gt (GenerateMetrics.requests load random) 500000 = true
  <-> 500000 < load + random * 50000.
Proof. apply gt_spec. Qed.

End Conditions.

(** X4.  The clamps of the pod count never bind in a session: at every tick
    [newPods] is [targetPods] itself, between 50 and 1017, so the stored
    [pods] stays in that range and the cap of 2500 is never reached. *)
Theorem pods_never_reach_the_cap
  (s : State) (timestamp : string) (random : Q) :
  reachable s -> validDraw random = true ->
  50 <= pods s <= 1017
  /\ GenerateMetrics.newPods (currentLoad s) random
     = GenerateMetrics.targetPods (currentLoad s) random
  /\ 50 <= pods (generateMetrics timestamp random s) <= 1017.
Proof.
  intros Hs Hdraw. destruct (reachable_levels s Hs) as [Hload _].
  split; [apply tickPods_range; now apply reachable_tickPods|].
  split; [now apply level_newPods|].
  cbn [generateMetrics pods]. rewrite level_newPods by assumption.
  now apply level_targetPods_range.
Qed.

Lemma pods_never_reach_the_cap_witness :
  reachable (stateAfter (spikeSession 2))
  /\ validDraw (99 # 100) = true
  /\ pods (generateMetrics "20:00:02" (99 # 100) (stateAfter (spikeSession 2)))
     = 1017
  /\ 50 <= pods (generateMetrics "20:00:02" (99 # 100)
                   (stateAfter (spikeSession 2))) <= 1017.
Proof.
  split; [apply stateAfter_reachable|]. split; [reflexivity|].
  split; [vm_compute; reflexivity|].
  exact (proj2 (proj2 (pods_never_reach_the_cap
                         (stateAfter (spikeSession 2)) "20:00:02" (99 # 100)
                         (stateAfter_reachable _) eq_refl))).
Defined.

(** X5.  The CPU figure is pinned at its cap: pods are provisioned for just
    the current requests, so at every tick of a session the raw figure is over
    95, the sample's [cpuUsage] is exactly 95 and the "High CPU usage: 95%"
    warning is pushed. *)
Theorem cpu_usage_is_always_95
  (s : State) (timestamp : string) (random : Q) :
  reachable s -> validDraw random = true ->
  (GenerateMetrics.cpuUsage (currentLoad s) random == 95)%Q
  /\ MetricData.cpuUsage
       (GenerateMetrics.newMetric
          (currentLoad s) (cacheHitRate s) timestamp random) = 95
  /\ GenerateMetrics.cpuLog (currentLoad s) timestamp random
     = [ {| LogEntry.timestamp := timestamp;
            LogEntry.level := WARN;
            LogEntry.component := K8S;
            LogEntry.message := "High CPU usage: 95%" |} ].
Proof.
  intros Hs Hdraw. destruct (reachable_levels s Hs) as [Hload _].
  destruct (loadLevel_bounds _ Hload) as [Hmin _].
  destruct (validDraw_spec _ Hdraw) as [H0 _].
  pose proof (cpuUsage_pinned _ _ Hmin H0) as Hcpu.
  assert (Hfloor : Qfloor (GenerateMetrics.cpuUsage (currentLoad s) random)
                   = 95).
  { rewrite (Qfloor_comp _ _ Hcpu). reflexivity. }
  split; [exact Hcpu|]. split; [exact Hfloor|].
  unfold GenerateMetrics.cpuLog.
  rewrite (cpu_condition _ _ Hdraw Hmin), Hfloor. reflexivity.
Qed.

Lemma cpu_usage_is_always_95_witness :
  reachable (stateAfter (calmSession 3))
  /\ validDraw (2 # 7) = true
  /\ MetricData.cpuUsage
       (GenerateMetrics.newMetric
          (currentLoad (stateAfter (calmSession 3)))
          (cacheHitRate (stateAfter (calmSession 3))) "19:30:03" (2 # 7)) = 95.
Proof.
  split; [apply stateAfter_reachable|]. split; [reflexivity|].
  exact (proj1 (proj2 (cpu_usage_is_always_95
                         (stateAfter (calmSession 3)) "19:30:03" (2 # 7)
                         (stateAfter_reachable _) eq_refl))).
Defined.

(** X6.  Because the CPU warning fires at every tick, [newLogs] is never
    empty in a session: every tick puts its entries in front of the first 49
    older ones, and once a tick has run the "No logs yet" placeholder is not
    shown. *)
Theorem every_tick_writes_to_the_log
  (s : State) (timestamp : string) (random : Q) :
  reachable s -> validDraw random = true ->
  let newLogs :=
    GenerateMetrics.newLogs
      (currentLoad s) (cacheHitRate s) (pods s) timestamp random in
  let s' := generateMetrics timestamp random s in
  (1 <= List.length newLogs <= 6)%nat
  /\ logs s' = newLogs ++ Js.slice_first 49 (logs s)
  /\ logsPlaceholderShown s' = false.
Proof.
  intros Hs Hdraw newLogs s'.
  destruct (reachable_levels s Hs) as [Hload _].
  destruct (loadLevel_bounds _ Hload) as [Hmin _].
  assert (Hlen : (1 <= List.length newLogs <= 6)%nat).
  { split; [|apply newLogs_length].
    unfold newLogs, GenerateMetrics.newLogs, GenerateMetrics.cpuLog.
    rewrite (cpu_condition _ _ Hdraw Hmin).
    repeat rewrite length_app. cbn [List.length]. lia. }
  assert (Hlogs : logs s' = newLogs ++ Js.slice_first 49 (logs s)).
  { apply logs_newest_first. fold newLogs.
    intros Hnil. rewrite Hnil in Hlen. cbn in Hlen. lia. }
  split; [exact Hlen|]. split; [exact Hlogs|].
  unfold logsPlaceholderShown. rewrite Hlogs, length_app.
  apply Nat.eqb_neq. lia.
Qed.

Lemma every_tick_writes_to_the_log_witness :
  reachable (stateAfter (calmSession 0))
  /\ validDraw (1 # 8) = true
  /\ logsPlaceholderShown (stateAfter (calmSession 0)) = true
  /\ logsPlaceholderShown
       (generateMetrics "19:30:00" (1 # 8) (stateAfter (calmSession 0)))
     = false.
Proof.
  split; [apply stateAfter_reachable|]. split; [reflexivity|].
  split; [reflexivity|].
  exact (proj2 (proj2 (every_tick_writes_to_the_log
                         (stateAfter (calmSession 0)) "19:30:00" (1 # 8)
                         (stateAfter_reachable _) eq_refl))).
Defined.

(** X7.  With the baseline at 92 the cache warning is pushed exactly when
    [currentLoad] is above 400000, whatever the draw. *)
Theorem cache_warning_threshold (load : Q) (timestamp : string) :
  GenerateMetrics.cacheLog load 92 timestamp <> [] <-> (400000 < load)%Q.
Proof.
  rewrite <- cache_condition. unfold GenerateMetrics.cacheLog.
  destruct (Js.lt (GenerateMetrics.hitRate load 92) 90); split;
    try discriminate; try reflexivity.
  intros H. now contradiction H.
Qed.

Lemma cache_warning_threshold_witness :
  (400000 < 800000)%Q
  /\ GenerateMetrics.cacheLog 800000 92 "20:00:15" <> []
  /\ (GenerateMetrics.cacheLog 150000 92 "19:30:00" <> [] ->
      (400000 < 150000)%Q).
Proof.
  assert (H : (400000 < 800000)%Q) by reflexivity.
  split; [exact H|]. split.
  - exact (proj2 (cache_warning_threshold 800000 "20:00:15") H).
  - exact (proj1 (cache_warning_threshold 150000 "19:30:00")).
Defined.

(** ** Which entries a tick pushes *)

Section LevelEntries.
Local Open Scope Q_scope.

Variables (timestamp : string) (random : Q).
Hypothesis random_valid : validDraw random = true.

Lemma requests_gt (load bound : Q) :
  bound < load ->
  Js.gt (GenerateMetrics.requests load random) bound = true.
Proof.
  intros H. destruct (validDraw_spec _ random_valid) as [H0 _].
  apply gt_spec.
  unfold GenerateMetrics.requests, GenerateMetrics.baseRequests. lra.
Qed.

Lemma requests_not_gt (load bound : Q) :
  load + 50000 <= bound ->
  Js.gt (GenerateMetrics.requests load random) bound = false.
Proof.
  intros H. destruct (validDraw_spec _ random_valid) as [_ H1].
  apply gt_false.
  unfold GenerateMetrics.requests, GenerateMetrics.baseRequests. lra.
Qed.

Lemma cache_condition_false (load : Q) :
  load <= 400000 -> Js.lt (GenerateMetrics.hitRate load 92) 90 = false.
Proof.
  intros H. destruct (Js.lt _ 90) eqn:E; [|reflexivity].
  apply cache_condition in E. lra.
Qed.

Lemma eventLogs_at_150000 :
  tags (eventLogs 150000 92 timestamp random) = [(WARN, K8S)].
Proof.
  unfold eventLogs, GenerateMetrics.cpuLog, GenerateMetrics.cacheLog,
    GenerateMetrics.latencyLog, GenerateMetrics.trafficLog,
    GenerateMetrics.peakLog.
  rewrite (cpu_condition _ _ random_valid) by lra.
  rewrite cache_condition_false by lra.
  rewrite (latency_condition_low _ _ random_valid) by lra.
  rewrite 2 requests_not_gt by lra.
  reflexivity.
Qed.

Lemma eventLogs_at_800000 :
  tags (eventLogs 800000 92 timestamp random)
  = [(WARN, K8S); (WARN, CACHE); (ERROR, API); (INFO, LB)].
Proof.
  unfold eventLogs, GenerateMetrics.cpuLog, GenerateMetrics.cacheLog,
    GenerateMetrics.latencyLog, GenerateMetrics.trafficLog,
    GenerateMetrics.peakLog.
  rewrite (cpu_condition _ _ random_valid) by lra.
  rewrite (proj2 (cache_condition 800000)) by lra.
  rewrite (latency_condition_high _ _ random_valid) by lra.
  rewrite (requests_gt 800000 500000) by lra.
  rewrite requests_not_gt by lra.
  reflexivity.
Qed.

Lemma eventLogs_at_3000000 :
  tags (eventLogs 3000000 92 timestamp random)
  = [(WARN, K8S); (WARN, CACHE); (ERROR, API); (INFO, LB); (CRITICAL, INFRA)].
Proof.
  unfold eventLogs, GenerateMetrics.cpuLog, GenerateMetrics.cacheLog,
    GenerateMetrics.latencyLog, GenerateMetrics.trafficLog,
    GenerateMetrics.peakLog.
  rewrite (cpu_condition _ _ random_valid) by lra.
  rewrite (proj2 (cache_condition 3000000)) by lra.
  rewrite (latency_condition_high _ _ random_valid) by lra.
  rewrite (requests_gt 3000000 500000) by lra.
  rewrite (requests_gt 3000000 2000000) by lra.
  reflexivity.
Qed.

(** During a spike the two figures of the peak entry are constant. *)
Lemma peak_figures :
  Qfloor (GenerateMetrics.requests 3000000 random / 1000000) = 3%Z
  /\ Qfloor (inject_Z (GenerateMetrics.activeUsers 3000000 random)
             / 10000000) = 0%Z.
Proof.
  destruct (validDraw_spec _ random_valid) as [H0 H1].
  assert (Hr : 3000000 <= GenerateMetrics.requests 3000000 random
               /\ GenerateMetrics.requests 3000000 random < 3050000).
  { unfold GenerateMetrics.requests, GenerateMetrics.baseRequests.
    split; lra. }
  destruct Hr as [Hlo Hhi]. split.
  - apply Qfloor_unique.
    + apply Qle_shift_div_l; [reflexivity|].
      change (inject_Z 3) with 3. lra.
    + apply Qlt_shift_div_r; [reflexivity|].
      change (inject_Z (3 + 1)) with 4. lra.
  - unfold GenerateMetrics.activeUsers.
    set (r := GenerateMetrics.requests 3000000 random) in *.
    pose proof (Qfloor_le (r / 3.5)) as Hle.
    assert (Hge : (0 <= Qfloor (r / 3.5))%Z).
    { apply Qfloor_nonneg. apply Qle_shift_div_l; [reflexivity|]. lra. }
    rewrite Zle_Qle in Hge. change (inject_Z 0) with 0 in Hge.
    assert (Hdiv : r / 3.5 < 1000000).
    { apply Qlt_shift_div_r; [reflexivity|].
      assert (H35 : 1000000 * 3.5 == 3500000) by reflexivity.
      rewrite H35. lra. }
    set (u := inject_Z (Qfloor (r / 3.5))) in *.
    set (d := r / 3.5) in *. clearbody u d.
    apply Qfloor_unique.
    + apply Qle_shift_div_l; [reflexivity|].
      change (inject_Z 0) with 0. lra.
    + apply Qlt_shift_div_r; [reflexivity|].
      change (inject_Z (0 + 1)) with 1. lra.
Qed.

End LevelEntries.

(** X8.  The load level decides which entries a tick pushes after the
    optional scaling entry: at 150000 only the CPU warning; at 800000 the CPU
    and cache warnings, the response-time error and the traffic notice; at
    3000000 those four and the critical peak entry, in this order. *)
Theorem entries_pushed_at_each_level
  (s : State) (timestamp : string) (random : Q) :
  reachable s -> validDraw random = true ->
  let newLogs :=
    GenerateMetrics.newLogs
      (currentLoad s) (cacheHitRate s) (pods s) timestamp random in
  let scaling :=
    tags (GenerateMetrics.scalingLog (currentLoad s) (pods s) timestamp random)
  in
  (currentLoad s = 150000%Q -> tags newLogs = scaling ++ [(WARN, K8S)])
  /\ (currentLoad s = 800000%Q ->
      tags newLogs
      = scaling ++ [(WARN, K8S); (WARN, CACHE); (ERROR, API); (INFO, LB)])
  /\ (currentLoad s = 3000000%Q ->
      tags newLogs
      = scaling ++ [(WARN, K8S); (WARN, CACHE); (ERROR, API); (INFO, LB);
                    (CRITICAL, INFRA)])
  /\ (currentLoad s = 150000%Q \/ currentLoad s = 800000%Q
      \/ currentLoad s = 3000000%Q).
Proof.
  intros Hs Hdraw newLogs scaling.
  assert (Htags : tags newLogs
                  = scaling
                    ++ tags (eventLogs (currentLoad s) 92 timestamp random)).
  { unfold newLogs. rewrite (reachable_cacheHitRate s Hs), newLogs_split.
    unfold tags. now rewrite map_app. }
  rewrite Htags.
  repeat match goal with |- _ /\ _ => split end.
  - intros H. rewrite H. now rewrite eventLogs_at_150000.
  - intros H. rewrite H. now rewrite eventLogs_at_800000.
  - intros H. rewrite H. now rewrite eventLogs_at_3000000.
  - now apply reachable_levels.
Qed.

Lemma entries_pushed_at_each_level_witness :
  reachable (stateAfter (spikeSession 1))
  /\ validDraw (1 # 2) = true
  /\ tags (GenerateMetrics.newLogs
             (currentLoad (stateAfter (spikeSession 1)))
             (cacheHitRate (stateAfter (spikeSession 1)))
             (pods (stateAfter (spikeSession 1))) "20:00:01" (1 # 2))
     = [(INFO, K8S); (WARN, K8S); (WARN, CACHE); (ERROR, API); (INFO, LB);
        (CRITICAL, INFRA)].
Proof.
  split; [apply stateAfter_reachable|]. split; [reflexivity|].
  pose proof (entries_pushed_at_each_level
                (stateAfter (spikeSession 1)) "20:00:01" (1 # 2)
                (stateAfter_reachable _) eq_refl) as (_ & _ & H & _).
  exact (H eq_refl).
Defined.

(** X9.  During a spike every tick pushes the same critical entry, whatever
    the draw: "PEAK IPL TRAFFIC: 3M req/s - 0 crore users".  The crore figure
    is [Math.floor(activeUsers / 10000000)], which is 0 at the request rates
    of a spike. *)
Theorem peak_entry_reports_0_crore_users
  (s : State) (timestamp : string) (random : Q) :
  validDraw random = true -> currentLoad s = 3000000%Q ->
  GenerateMetrics.peakLog (currentLoad s) timestamp random
  = [ {| LogEntry.timestamp := timestamp;
         LogEntry.level := CRITICAL;
         LogEntry.component := INFRA;
         LogEntry.message := "PEAK IPL TRAFFIC: 3M req/s - 0 crore users" |} ].
Proof.
  intros Hdraw Hload. rewrite Hload.
  destruct (peak_figures random Hdraw) as [Hm Hu].
  unfold GenerateMetrics.peakLog.
  rewrite (requests_gt random Hdraw 3000000 2000000) by reflexivity.
  rewrite Hm, Hu. reflexivity.
Qed.

Lemma peak_entry_reports_0_crore_users_witness :
  validDraw (9 # 10) = true
  /\ currentLoad (stateAfter (spikeSession 2)) = 3000000%Q
  /\ GenerateMetrics.peakLog
       (currentLoad (stateAfter (spikeSession 2))) "20:00:02" (9 # 10)
     = [ {| LogEntry.timestamp := "20:00:02";
            LogEntry.level := CRITICAL;
            LogEntry.component := INFRA;
            LogEntry.message :=
              "PEAK IPL TRAFFIC: 3M req/s - 0 crore users" |} ].
Proof.
  split; [reflexivity|]. split; [reflexivity|].
  exact (peak_entry_reports_0_crore_users
           (stateAfter (spikeSession 2)) "20:00:02" (9 # 10)
           eq_refl eq_refl).
Defined.

(** ** The samples in the buffer *)

Section LevelSample.
Local Open Scope Q_scope.

Variables (load random : Q).
Hypothesis load_level : loadLevel load.
Hypothesis random_valid : validDraw random = true.

Lemma level_requests_floor :
  (150000 <= Qfloor (GenerateMetrics.requests load random) <= 3049999)%Z.
Proof.
  destruct (level_requests_range _ _ load_level random_valid) as [Hlo Hhi].
  split.
  - change 150000%Z with (Qfloor (inject_Z 150000)).
    now apply Qfloor_resp_le.
  - assert (H : (Qfloor (GenerateMetrics.requests load random) < 3050000)%Z).
    { rewrite Zlt_Qlt. eapply Qle_lt_trans; [apply Qfloor_le|].
      exact Hhi. }
    lia.
Qed.

(** The hits of a sample lie between 88% and 92% of the raw requests. *)
Lemma level_hits_share :
  let r := GenerateMetrics.requests load random in
  let p := r * (GenerateMetrics.hitRate load 92 / 100) in
  (22 # 25) * r <= p /\ p <= (23 # 25) * r.
Proof.
  intros r p.
  destruct (level_requests_range _ _ load_level random_valid) as [Hlo _].
  destruct (loadLevel_bounds _ load_level) as [Hmin _].
  assert (Hpos : 0 <= load) by lra.
  assert (Hrate : 92 == 92) by reflexivity.
  destruct (hitRate_range load 92 Hpos Hrate) as [H88 H92].
  pose proof (Qdiv_times (GenerateMetrics.hitRate load 92) 100) as Hd.
  assert (H100 : ~ 100 == 0) by discriminate. specialize (Hd H100).
  unfold p. fold r in Hlo.
  set (h := GenerateMetrics.hitRate load 92) in *.
  set (g := h / 100) in *. clearbody g h r.
  assert (Hg : 22 # 25 <= g /\ g <= 23 # 25) by (split; lra).
  destruct Hg as [Hg1 Hg2].
  rewrite (Qmult_comm (22 # 25) r), (Qmult_comm (23 # 25) r).
  assert (Hr : 0 < r) by lra.
  split; apply Qmult_le_l; assumption.
Qed.

Lemma level_hits_range :
  (0 <= GenerateMetrics.cacheHits load 92 random
   <= Qfloor (GenerateMetrics.requests load random))%Z.
Proof.
  destruct level_hits_share as [Hlo Hhi].
  destruct (level_requests_range _ _ load_level random_valid) as [Hr _].
  unfold GenerateMetrics.cacheHits.
  set (r := GenerateMetrics.requests load random) in *.
  set (p := r * (GenerateMetrics.hitRate load 92 / 100)) in *.
  split.
  - apply Qfloor_nonneg. clearbody p r. lra.
  - apply Qfloor_resp_le. clearbody p r. lra.
Qed.

Lemma level_responseTime :
  (71 <= Qfloor (GenerateMetrics.responseTime load 92 random))%Z.
Proof.
  destruct (loadLevel_bounds _ load_level) as [Hmin _].
  assert (Hpos : 0 <= load) by lra.
  assert (Hrate : 92 == 92) by reflexivity.
  destruct (hitRate_range load 92 Hpos Hrate) as [_ H92].
  pose proof (loadFactor_ge_1 load random) as HL.
  change 71%Z with (Qfloor (inject_Z 71)). apply Qfloor_resp_le.
  unfold GenerateMetrics.responseTime, GenerateMetrics.baseResponseTime,
    GenerateMetrics.cacheFactor.
  pose proof (Qdiv_times (GenerateMetrics.hitRate load 92) 100) as Hd.
  assert (H100 : ~ 100 == 0) by discriminate. specialize (Hd H100).
  set (h := GenerateMetrics.hitRate load 92) in *.
  set (q := h / 100) in *.
  set (L := GenerateMetrics.loadFactor load random) in *. clearbody q h L.
  assert (H25 : 2.5 == 5 # 2) by reflexivity. rewrite H25.
  assert (Hf : 79 # 50 <= (5 # 2) - q) by lra.
  assert (Hprod : 1 * (79 # 50) <= L * ((5 # 2) - q)).
  { apply Qmult_le_compat_nonneg; split; lra. }
  change (inject_Z 71) with 71. lra.
Qed.

Lemma level_activeUsers :
  (42857 <= GenerateMetrics.activeUsers load random <= 871428)%Z.
Proof.
  destruct (level_requests_range _ _ load_level random_valid) as [Hlo Hhi].
  unfold GenerateMetrics.activeUsers.
  set (r := GenerateMetrics.requests load random) in *. split.
  - change 42857%Z with (Qfloor (inject_Z 42857)). apply Qfloor_resp_le.
    apply Qle_shift_div_l; [reflexivity|].
    assert (H : inject_Z 42857 * 3.5 == 299999 # 2) by reflexivity.
    rewrite H. clearbody r. lra.
  - assert (H : (Qfloor (r / 3.5) < 871429)%Z).
    { rewrite Zlt_Qlt. eapply Qle_lt_trans; [apply Qfloor_le|].
      apply Qlt_shift_div_r; [reflexivity|].
      assert (H : inject_Z 871429 * 3.5 == 6100003 # 2) by reflexivity.
      rewrite H. clearbody r. lra. }
    lia.
Qed.

(** The share of hits shown on the cache card. *)
Lemma level_cache_share :
  let hits := GenerateMetrics.cacheHits load 92 random in
  let total := Qfloor (GenerateMetrics.requests load random) in
  (87 <= Qfloor (inject_Z hits / inject_Z total * 100) <= 92)%Z.
Proof.
  intros hits total.
  destruct level_hits_share as [Hlo Hhi].
  destruct (level_requests_range _ _ load_level random_valid) as [Hr _].
  pose proof level_requests_floor as [Ht _]. fold total in Ht.
  rewrite Zle_Qle in Ht. change (inject_Z 150000) with 150000 in Ht.
  unfold hits, total, GenerateMetrics.cacheHits.
  set (r := GenerateMetrics.requests load random) in *.
  set (p := r * (GenerateMetrics.hitRate load 92 / 100)) in *.
  pose proof (Qfloor_le p) as Hp1. pose proof (Qlt_floor p) as Hp2.
  pose proof (Qfloor_le r) as Hr1. pose proof (Qlt_floor r) as Hr2.
  rewrite inject_Z_plus in Hp2, Hr2. change (inject_Z 1) with 1 in Hp2, Hr2.
  fold total in Hr1, Hr2, Ht |- *.
  set (hq := inject_Z (Qfloor p)) in *.
  set (tq := inject_Z total) in *.
  clearbody hq tq p r.
  assert (Htpos : 0 < tq) by lra.
  assert (Hlow : 87 # 100 <= hq / tq).
  { apply Qle_shift_div_l; [exact Htpos | lra]. }
  assert (Hup : hq / tq < 93 # 100).
  { apply Qlt_shift_div_r; [exact Htpos | lra]. }
  set (x := hq / tq) in *. clearbody x. split.
  - change 87%Z with (Qfloor (inject_Z 87)). apply Qfloor_resp_le.
    change (inject_Z 87) with 87. lra.
  - assert (H : (Qfloor (x * 100) < 93)%Z).
    { rewrite Zlt_Qlt. eapply Qle_lt_trans; [apply Qfloor_le|].
      change (inject_Z 93) with 93. lra. }
    lia.
Qed.

End LevelSample.

Lemma Forall_slice_last {A : Type} (P : A -> Prop) (n : nat) (arr : list A) :
  Forall P arr -> Forall P (Js.slice_last n arr).
Proof.
  intros H. unfold Js.slice_last.
  rewrite <- (firstn_skipn (List.length arr - n) arr) in H.
  now apply Forall_app in H.
Qed.

Lemma reachable_tickSamples (s : State) :
  reachable s -> Forall tickSample (metrics s).
Proof.
  induction 1 as [|s s' e Hs IH Hfire]; [constructor|].
  destruct e; cbn in Hfire.
  - destruct (isRunning s); inversion Hfire; subst. exact IH.
  - destruct (isRunning s); inversion Hfire; subst. exact IH.
  - inversion Hfire; subst. constructor.
  - destruct (isRunning s); inversion Hfire; subst. exact IH.
  - destruct (isRunning s && validDraw random) eqn:Hg; inversion Hfire; subst.
    apply andb_true_iff in Hg as [_ Hdraw].
    rewrite generateMetrics_emits. apply Forall_app. split.
    + now apply Forall_slice_last.
    + constructor; [|constructor].
      exists (currentLoad s), timestamp, random. split; [|split].
      * now apply reachable_levels.
      * exact Hdraw.
      * now rewrite (reachable_cacheHitRate s Hs).
  - destruct (timeouts s); inversion Hfire; subst. exact IH.
Qed.

Lemma tickSample_facts (m : MetricData.t) :
  tickSample m ->
  MetricData.cacheHits m + MetricData.cacheMisses m = MetricData.requests m
  /\ 150000 <= MetricData.requests m <= 3049999
  /\ 0 <= MetricData.cacheHits m
  /\ 0 <= MetricData.cacheMisses m
  /\ 50 <= MetricData.pods m <= 1017
  /\ MetricData.cpuUsage m = 95
  /\ 71 <= MetricData.responseTime m
  /\ 42857 <= MetricData.activeUsers m <= 871428.
Proof.
  intros (load & timestamp & random & Hload & Hdraw & Hm). subst m.
  cbn [GenerateMetrics.newMetric MetricData.cacheHits MetricData.cacheMisses
       MetricData.requests MetricData.pods MetricData.cpuUsage
       MetricData.responseTime MetricData.activeUsers].
  destruct (loadLevel_bounds _ Hload) as [Hmin _].
  destruct (validDraw_spec _ Hdraw) as [H0 _].
  pose proof (level_hits_range _ _ Hload Hdraw) as Hhits.
  assert (Hmiss : GenerateMetrics.cacheMisses load 92 random
                  = Qfloor (GenerateMetrics.requests load random)
                    - GenerateMetrics.cacheHits load 92 random).
  { unfold GenerateMetrics.cacheMisses. apply Qfloor_minus_Z. }
  repeat match goal with |- _ /\ _ => split end.
  - lia.
  - now apply level_requests_floor.
  - now apply level_requests_floor.
  - lia.
  - lia.
  - rewrite level_newPods by assumption.
    now apply level_targetPods_range.
  - rewrite level_newPods by assumption.
    now apply level_targetPods_range.
  - rewrite (Qfloor_comp _ _ (cpuUsage_pinned _ _ Hmin H0)). reflexivity.
  - now apply level_responseTime.
  - now apply level_activeUsers.
  - now apply level_activeUsers.
Qed.



(** ** What is shown *)

Lemma currentMetric_In (s : State) (m : MetricData.t) :
  currentMetric s = Some m -> In m (metrics s).
Proof.
  unfold currentMetric. destruct (metrics s) as [|m0 l]; [discriminate|].
  apply nth_error_In.
Qed.

Lemma currentMetric_last (l : list MetricData.t) (m : MetricData.t)
  (s : State) :
  metrics s = l ++ [m] -> currentMetric s = Some m.
Proof.
  intros Hm. unfold currentMetric. rewrite Hm.
  destruct (l ++ [m]) as [|m0 l0] eqn:E; [now destruct l|].
  rewrite <- E, length_app. cbn [List.length].
  rewrite nth_error_app2 by lia.
  replace (List.length l + 1 - 1 - List.length l)%nat with 0%nat by lia.
  reflexivity.
Qed.

(** X11.  The cards read the newest sample: after a tick [currentMetric] is
    the sample that tick computed and [cacheData] holds its hits and misses;
    after Reset there is no current sample, [cacheData] is empty, and the
    cache and response-time cards show 0. *)
Theorem cards_follow_the_newest_sample
  (s : State) (timestamp : string) (random : Q) :
  let m :=
    GenerateMetrics.newMetric (currentLoad s) (cacheHitRate s) timestamp random in
  currentMetric (generateMetrics timestamp random s) = Some m
  /\ map value (cacheData (generateMetrics timestamp random s))
     = [MetricData.cacheHits m; MetricData.cacheMisses m]
  /\ currentMetric (resetSimulation s) = None
  /\ cacheData (resetSimulation s) = []
  /\ cacheHitRateCard (resetSimulation s) = ShownInteger 0
  /\ responseTimeCard (resetSimulation s) = 0.
Proof.
  intros m.
  assert (H : currentMetric (generateMetrics timestamp random s) = Some m).
  { eapply currentMetric_last. apply generateMetrics_emits. }
  split; [exact H|]. split; [|repeat split].
  unfold cacheData. rewrite H. reflexivity.
Qed.

(** X12.  The cache card never shows a broken figure: in a session the
    newest sample has a positive total, and the card shows an integer between
    87 and 92 (0 before the first tick).  It can show 87 although the hit
    rate of a tick never goes below 88, because hits are floored. *)
Theorem cache_card_shows_87_to_92 (s : State) :
  reachable s ->
  exists n,
    cacheHitRateCard s = ShownInteger n
    /\ (n = 0 \/ 87 <= n <= 92)
    /\ (currentMetric s <> None -> 87 <= n <= 92).
Proof.
  intros Hs. unfold cacheHitRateCard.
  destruct (currentMetric s) as [m|] eqn:Hcur.
  - pose proof (reachable_tickSamples s Hs) as Hall.
    rewrite Forall_forall in Hall.
    destruct (Hall m (currentMetric_In _ _ Hcur))
      as (load & timestamp & random & Hload & Hdraw & Hm).
    pose proof (level_cache_share _ _ Hload Hdraw) as Hshare.
    pose proof (level_requests_floor _ _ Hload Hdraw) as Hreq.
    cbv zeta in Hshare. subst m.
    cbn [GenerateMetrics.newMetric MetricData.cacheHits
         MetricData.cacheMisses].
    assert (Htotal : GenerateMetrics.cacheHits load 92 random
                     + GenerateMetrics.cacheMisses load 92 random
                     = Qfloor (GenerateMetrics.requests load random)).
    { unfold GenerateMetrics.cacheMisses. rewrite Qfloor_minus_Z. lia. }
    rewrite Htotal.
    destruct (Z.eqb_spec (Qfloor (GenerateMetrics.requests load random)) 0)
      as [Hz | _]; [lia|].
    eexists. split; [reflexivity|]. split; [right|intros _]; exact Hshare.
  - exists 0. split; [reflexivity|]. split; [now left|].
    intros H. now contradiction H.
Qed.

Lemma cache_card_shows_87_to_92_witness :
  reachable
    (stateAfter (spikeSession 1
                 ++ [TimeoutFires; IntervalFires "20:00:15" (1 # 50000)%Q]))
  /\ cacheHitRateCard
       (stateAfter (spikeSession 1
                    ++ [TimeoutFires; IntervalFires "20:00:15" (1 # 50000)%Q]))
     = ShownInteger 87
  /\ exists n,
       cacheHitRateCard
         (stateAfter (spikeSession 1
                      ++ [TimeoutFires;
                          IntervalFires "20:00:15" (1 # 50000)%Q]))
       = ShownInteger n
       /\ (n = 0 \/ 87 <= n <= 92).
Proof.
  split; [apply stateAfter_reachable|]. split; [vm_compute; reflexivity|].
  destruct (cache_card_shows_87_to_92 _ (stateAfter_reachable
              (spikeSession 1
               ++ [TimeoutFires; IntervalFires "20:00:15" (1 # 50000)%Q])))
    as (n & Hn & Hrange & _).
  exists n. split; assumption.
Defined.

(** X13.  The "Current Load" badge is always drawn with the "destructive"
    variant: its thresholds are 8000 and 5000, and the load never goes below
    150000. *)
Theorem load_badge_is_always_destructive (s : State) :
  reachable s -> loadBadgeVariant s = "destructive"%string.
Proof.
  intros Hs. destruct (reachable_levels s Hs) as [Hload _].
  destruct (loadLevel_bounds _ Hload) as [Hmin _].
  unfold loadBadgeVariant.
  replace (Js.gt (currentLoad s) 8000) with true; [reflexivity|].
  symmetry. apply gt_spec.
  eapply Qlt_le_trans; [|exact Hmin]. reflexivity.
Qed.

Lemma load_badge_is_always_destructive_witness :
  reachable (stateAfter [ClickStart; ClickReset])
  /\ loadBadgeVariant (stateAfter [ClickStart; ClickReset])
     = "destructive"%string.
Proof.
  split; [apply stateAfter_reachable|].
  exact (load_badge_is_always_destructive
           (stateAfter [ClickStart; ClickReset]) (stateAfter_reachable _)).
Defined.

(** X14.  What [formatNumber] does with the values the cards give it,
    whatever digits [toFixed(1)] prints: the pod count is shown in full below
    1000 and in thousands ("K") from 1000 on; the active users of the newest
    sample are shown in thousands below 100000 and in lakhs (" L") from there
    on.  The crore branch (" Cr") is never taken. *)
Theorem format_number_on_the_cards
  (toFixed1 : Q -> string) (s : State) (m : MetricData.t) :
  reachable s -> currentMetric s = Some m ->
  formatNumber toFixed1 (pods s)
  = (if pods s <? 1000 then Js.toString (pods s)
     else (toFixed1 (inject_Z (pods s) / 1000)%Q ++ "K")%string)
  /\ formatNumber toFixed1 (MetricData.activeUsers m)
     = (if MetricData.activeUsers m <? 100000
        then (toFixed1 (inject_Z (MetricData.activeUsers m) / 1000)%Q
              ++ "K")%string
        else (toFixed1 (inject_Z (MetricData.activeUsers m) / 100000)%Q
              ++ " L")%string).
Proof.
  intros Hs Hcur.
  pose proof (tickPods_range _ (reachable_tickPods s Hs)) as Hpods.
  pose proof (reachable_tickSamples s Hs) as Hall.
  rewrite Forall_forall in Hall.
  destruct (tickSample_facts m (Hall m (currentMetric_In _ _ Hcur)))
    as (_ & _ & _ & _ & _ & _ & _ & Husers).
  unfold formatNumber. split.
  - replace (10000000 <=? pods s) with false by (symmetry; apply Z.leb_gt; lia).
    replace (100000 <=? pods s) with false by (symmetry; apply Z.leb_gt; lia).
    destruct (Z.ltb_spec (pods s) 1000) as [Hlt | Hge].
    + replace (1000 <=? pods s) with false by (symmetry; apply Z.leb_gt; lia).
      reflexivity.
    + replace (1000 <=? pods s) with true by (symmetry; apply Z.leb_le; lia).
      reflexivity.
  - replace (10000000 <=? MetricData.activeUsers m) with false
      by (symmetry; apply Z.leb_gt; lia).
    destruct (Z.ltb_spec (MetricData.activeUsers m) 100000) as [Hlt | Hge].
    + replace (100000 <=? MetricData.activeUsers m) with false
        by (symmetry; apply Z.leb_gt; lia).
      replace (1000 <=? MetricData.activeUsers m) with true
        by (symmetry; apply Z.leb_le; lia).
      reflexivity.
    + replace (100000 <=? MetricData.activeUsers m) with true
        by (symmetry; apply Z.leb_le; lia).
      reflexivity.
Qed.

Lemma format_number_on_the_cards_witness :
  reachable (stateAfter (spikeSession 1))
  /\ currentMetric (stateAfter (spikeSession 1))
     = Some (GenerateMetrics.newMetric 3000000 92 "20:00:00" 0)
  /\ formatNumber (fun _ => "?"%string) (pods (stateAfter (spikeSession 1)))
     = "?K"%string
  /\ formatNumber (fun _ => "?"%string)
       (MetricData.activeUsers
          (GenerateMetrics.newMetric 3000000 92 "20:00:00" 0))
     = "? L"%string.
Proof.
  assert (Hcur : currentMetric (stateAfter (spikeSession 1))
                 = Some (GenerateMetrics.newMetric 3000000 92 "20:00:00" 0))
    by (vm_compute; reflexivity).
  split; [apply stateAfter_reachable|]. split; [exact Hcur|].
  destruct (format_number_on_the_cards
              (fun _ => "?"%string) (stateAfter (spikeSession 1)) _
              (stateAfter_reachable _) Hcur) as [Hp Hu].
  split.
  - rewrite Hp. vm_compute. reflexivity.
  - rewrite Hu. vm_compute. reflexivity.
Defined.

(** ** The autoscaling formula *)

(** X15.  More traffic never means fewer pods: [newPods] is monotone in the
    load and in the draw. *)
Theorem newPods_is_monotone (load load' random random' : Q) :
  (load <= load')%Q -> (random <= random')%Q ->
  GenerateMetrics.newPods load random <= GenerateMetrics.newPods load' random'.
Proof.
  intros Hload Hdraw.
  assert (Ht : GenerateMetrics.targetPods load random
               <= GenerateMetrics.targetPods load' random').
  { unfold GenerateMetrics.targetPods. apply Qceiling_resp_le.
    apply Qmult_le_compat_r; [|discriminate].
    unfold GenerateMetrics.requests, GenerateMetrics.baseRequests. lra. }
  unfold GenerateMetrics.newPods. lia.
Qed.

Lemma newPods_is_monotone_witness :
  (800000 <= 3000000)%Q /\ (1 # 4 <= 1 # 2)%Q
  /\ GenerateMetrics.newPods 800000 (1 # 4)
     <= GenerateMetrics.newPods 3000000 (1 # 2).
Proof.
  assert (H1 : (800000 <= 3000000)%Q) by (vm_compute; discriminate).
  assert (H2 : (1 # 4 <= 1 # 2)%Q) by (vm_compute; discriminate).
  split; [exact H1|]. split; [exact H2|].
  exact (newPods_is_monotone 800000 3000000 (1 # 4) (1 # 2) H1 H2).
Defined.

(** X16.  The pods provisioned by a tick cover its requests, at 3000 requests
    per pod, exactly when the requests do not exceed 7500000, the capacity of
    the 2500-pod cap; this holds for every load and draw. *)
Theorem pods_cover_requests_up_to_the_cap (load random : Q) :
  (GenerateMetrics.requests load random
   <= inject_Z (GenerateMetrics.newPods load random) * 3000)%Q
  <-> (GenerateMetrics.requests load random <= 7500000)%Q.
Proof.
  pose proof (newPods_range load random) as [Hlo Hhi].
  rewrite Zle_Qle in Hlo, Hhi.
  change (inject_Z 50) with 50%Q in Hlo.
  change (inject_Z 2500) with 2500%Q in Hhi.
  split.
  - intros H.
    set (np := inject_Z (GenerateMetrics.newPods load random)) in *.
    set (r := GenerateMetrics.requests load random) in *.
    clearbody np r. lra.
  - intros H.
    assert (Ht : GenerateMetrics.targetPods load random <= 2500).
    { unfold GenerateMetrics.targetPods.
      change 2500 with (Qceiling (inject_Z 2500)).
      apply Qceiling_resp_le. apply Qle_shift_div_r; [reflexivity|].
      change (inject_Z 2500) with 2500%Q.
      set (r := GenerateMetrics.requests load random) in *.
      clearbody r. lra. }
    assert (Hnp : GenerateMetrics.targetPods load random
                  <= GenerateMetrics.newPods load random).
    { unfold GenerateMetrics.newPods. lia. }
    rewrite Zle_Qle in Hnp.
    pose proof (Qle_ceiling (GenerateMetrics.requests load random / 3000))
      as Hc.
    fold (GenerateMetrics.targetPods load random) in Hc.
    pose proof (Qdiv_times (GenerateMetrics.requests load random) 3000) as Hd.
    assert (H3 : ~ (3000 == 0)%Q) by discriminate. specialize (Hd H3).
    set (np := inject_Z (GenerateMetrics.newPods load random)) in *.
    set (tp := inject_Z (GenerateMetrics.targetPods load random)) in *.
    set (q := (GenerateMetrics.requests load random / 3000)%Q) in *.
    set (r := GenerateMetrics.requests load random) in *.
    clearbody np tp q r. lra.
Qed.

Lemma pods_cover_requests_up_to_the_cap_witness :
  (GenerateMetrics.requests 3000000 (1 # 2) <= 7500000)%Q
  /\ (GenerateMetrics.requests 3000000 (1 # 2)
      <= inject_Z (GenerateMetrics.newPods 3000000 (1 # 2)) * 3000)%Q.
Proof.
  assert (H : (GenerateMetrics.requests 3000000 (1 # 2) <= 7500000)%Q)
    by (vm_compute; discriminate).
  split; [exact H|].
  exact (proj2 (pods_cover_requests_up_to_the_cap 3000000 (1 # 2)) H).
Defined.

(** ** The size of the log buffer *)

(** X17.  The log buffer holds at most 55 entries in every reachable state:
    a tick keeps 49 older entries and pushes at most six.  The bound is
    reached in a spike in which the pod count changes at every tick. *)
Theorem log_buffer_holds_at_most_55 (s : State) :
  reachable s -> (List.length (logs s) <= 55)%nat.
Proof. apply reachable_logs_length. Qed.

Lemma log_buffer_holds_at_most_55_witness :
  reachable (stateAfter (busySession 5))
  /\ List.length (logs (stateAfter (busySession 5))) = 55%nat
  /\ (List.length (logs (stateAfter (busySession 5))) <= 55)%nat.
Proof.
  split; [apply stateAfter_reachable|]. split; [vm_compute; reflexivity|].
  exact (log_buffer_holds_at_most_55
           (stateAfter (busySession 5)) (stateAfter_reachable _)).
Defined.
